(** * Astrid Mart: barcode disambiguator, scan router, cart ledger, learning session

    A shallow embedding of the game-state core of [main.py]
    (class [ArcadeRetailGame]) and the properties its specification
    states about it.

    Conventions of the embedding:
    - the game object is the record [Game]; a method [self.f(x)] is a
      function [f g x] returning the updated record (and the method's
      return value, when it has one);
    - the clocks are inputs: [pygame.time.get_ticks()] is the argument
      [current_time : Z] (milliseconds), [time.time()] the argument
      [wall], [time.strftime('%H:%M:%S')] the argument [stamp];
    - [random.shuffle] is the argument [shuffle], a function on lists;
    - [self.skus] and [self.keyboard_shortcuts] are finite maps keyed by
      strings; [self.cart] is a Python dict whose iteration order
      (insertion order) decides [remove_last_item], so it is an
      association list in insertion order;
    - prices and wall-clock times are Python numbers.  The arithmetic the
      code performs on them ([+], [-], [>]) is the interface [Number];
      the instance [py_float] is IEEE binary64, what the interpreter
      computes; the instance [exact_Z] is exact integer arithmetic
      (amounts in cents), used to state what holds up to rounding;
    - the status line [self.scanned_item] is an f-string in the source;
      here it is the value [Message] that records which text was chosen
      and the data interpolated in it;
    - [debug_mode] printing, drawing, fonts, the serial thread and the
      payment screen are left out: none of the modelled methods reads
      what they write. *)

From Stdlib Require Import PrimFloat ZArith Ascii String.
From stdpp Require Import gmap strings list fin_maps.

Set Warnings "-inexact-float".

Local Open Scope Z_scope.

(** ** Numbers *)

Class Number := {
  num : Type;
  nzero : num;
  nadd : num -> num -> num;
  nsub : num -> num -> num;
  ngt : num -> num -> bool
}.

(** Python [float]: binary64, round to nearest even. *)
Definition py_float : Number := {|
  num := float;
  nzero := 0%float;
  nadd := PrimFloat.add;
  nsub := PrimFloat.sub;
  ngt := fun x y => PrimFloat.ltb y x
|}.

(** Exact amounts (integer cents, integer clock ticks). *)
Definition exact_Z : Number := {|
  num := Z;
  nzero := 0;
  nadd := Z.add;
  nsub := Z.sub;
  ngt := Z.gtb
|}.

(** ** Characters *)

(** [str.isalnum] on a one-character string whose code point is below
    256 (the keyboard handler only produces [0-9] and [a-z]). *)
Definition isalnum (c : ascii) : bool :=
  let n := N_of_ascii c in
  ((48 <=? n) && (n <=? 57) || (65 <=? n) && (n <=? 90)
   || (97 <=? n) && (n <=? 122)
   || (n =? 170) || (n =? 178) || (n =? 179) || (n =? 181)
   || (n =? 185) || (n =? 186) || (188 <=? n) && (n <=? 190)
   || (192 <=? n) && (n <=? 214) || (216 <=? n) && (n <=? 246)
   || (248 <=? n) && (n <=? 255))%N.

(** [''.join(filter(str.isalnum, s))] *)
Fixpoint keep_alnum (s : string) : string :=
  match s with
  | EmptyString => EmptyString
  | String c rest =>
      if isalnum c then String c (keep_alnum rest) else keep_alnum rest
  end.

(** [k in d] for a dict [d]. *)
Definition has_key {V : Type} (d : gmap string V) (k : string) : bool :=
  match d !! k with Some _ => true | None => false end.

(** Truth value of a Python string: empty is false. *)
Definition nonempty (s : string) : bool :=
  match s with EmptyString => false | String _ _ => true end.

(** ** Game states and status messages *)

Inductive GameState :=
  MENU | RETAIL_MODE | TIMER_MODE | GAME_OVER | PRODUCT_MANAGER | PAYMENT_MODE.

Section Model.
Context {NUM : Number}.

(** A value of [self.skus]: the product record of [products.json]. *)
Record Product := {
  name : string;
  price : num;
  category : string;
  description : string;
  image : string
}.

(** A value of [self.cart]. *)
Record CartItem := {
  item_sku : string;
  item_name : string;
  item_price : num;
  quantity : Z;
  item_total_price : num;
  item_category : string;
  item_description : string;
  image_path : string;
  first_added : num
}.

(** An element of [self.receipt]. *)
Record ReceiptEntry := {
  entry_item : string;
  entry_price : num;
  entry_timestamp : string
}.

(** The texts assigned to [self.scanned_item]. *)
Inductive Message :=
| MsgNone                                   (* "" *)
| MsgScanning (buffer : string)             (* "Scanning: {buffer}" *)
| MsgAdded (n : string) (p : num) (qty : Z) (* "Added: {name} ({price}) [Qty: {quantity}]" *)
| MsgProductNotFound                        (* "Product not found!" *)
| MsgCorrect (n : string)                   (* "Correct! That's {name}!" *)
| MsgMovingOn (n : string)                  (* "That's {name}. Moving to next product!" *)
| MsgNotFoundMovingOn                       (* "Product not found. Moving to next product!" *)
| MsgCartCleared                            (* "Cart cleared!" *)
| MsgCartEmpty                              (* "Cart is empty!" *)
| MsgRemovedOne (n : string) (qty : Z)      (* "Removed one {name} [Qty: {quantity}]" *)
| MsgRemoved (n : string).                  (* "Removed {name} from cart" *)

(** The fields of [ArcadeRetailGame] that the modelled methods touch. *)
Record Game := {
  state : GameState;
  skus : gmap string Product;
  keyboard_shortcuts : gmap string string;
  barcode_buffer : string;
  barcode_input_time : Z;
  last_key_time : Z;
  cart : list (string * CartItem);
  total_price : num;
  scanned_item : Message;
  receipt : list ReceiptEntry;
  cart_scroll_offset : Z;
  timer_score : Z;
  timer_correct : Z;
  timer_start_time : Z;
  current_target : option Product;
  timer_items_found : list string;
  learning_current_index : nat;
  learning_product_order : list Product;
  last_scan_time : Z
}.

(** Constants assigned once in [__init__]. *)
Definition barcode_timeout : Z := 1000.
Definition scanner_speed_threshold : Z := 100.
Definition scan_cooldown : Z := 1000.

(** [__init__], after [load_products] returned the two mappings. *)
Definition init (products : gmap string Product)
    (shortcuts : gmap string string) : Game := {|
  state := MENU;
  skus := products;
  keyboard_shortcuts := shortcuts;
  barcode_buffer := "";
  barcode_input_time := 0;
  last_key_time := 0;
  cart := [];
  total_price := nzero;
  scanned_item := MsgNone;
  receipt := [];
  cart_scroll_offset := 0;
  timer_score := 0;
  timer_correct := 0;
  timer_start_time := 0;
  current_target := None;
  timer_items_found := [];
  learning_current_index := 0%nat;
  learning_product_order := [];
  last_scan_time := 0
|}.

(** *** Field assignments [self.f = v] *)

Definition set_state (g : Game) (v : GameState) : Game :=
  Build_Game v (skus g) (keyboard_shortcuts g) (barcode_buffer g)
    (barcode_input_time g) (last_key_time g) (cart g) (total_price g)
    (scanned_item g) (receipt g) (cart_scroll_offset g) (timer_score g)
    (timer_correct g) (timer_start_time g) (current_target g)
    (timer_items_found g) (learning_current_index g)
    (learning_product_order g) (last_scan_time g).

Definition set_barcode_buffer (g : Game) (v : string) : Game :=
  Build_Game (state g) (skus g) (keyboard_shortcuts g) v
    (barcode_input_time g) (last_key_time g) (cart g) (total_price g)
    (scanned_item g) (receipt g) (cart_scroll_offset g) (timer_score g)
    (timer_correct g) (timer_start_time g) (current_target g)
    (timer_items_found g) (learning_current_index g)
    (learning_product_order g) (last_scan_time g).

Definition set_barcode_input_time (g : Game) (v : Z) : Game :=
  Build_Game (state g) (skus g) (keyboard_shortcuts g) (barcode_buffer g)
    v (last_key_time g) (cart g) (total_price g)
    (scanned_item g) (receipt g) (cart_scroll_offset g) (timer_score g)
    (timer_correct g) (timer_start_time g) (current_target g)
    (timer_items_found g) (learning_current_index g)
    (learning_product_order g) (last_scan_time g).

Definition set_last_key_time (g : Game) (v : Z) : Game :=
  Build_Game (state g) (skus g) (keyboard_shortcuts g) (barcode_buffer g)
    (barcode_input_time g) v (cart g) (total_price g)
    (scanned_item g) (receipt g) (cart_scroll_offset g) (timer_score g)
    (timer_correct g) (timer_start_time g) (current_target g)
    (timer_items_found g) (learning_current_index g)
    (learning_product_order g) (last_scan_time g).

Definition set_cart (g : Game) (v : list (string * CartItem)) : Game :=
  Build_Game (state g) (skus g) (keyboard_shortcuts g) (barcode_buffer g)
    (barcode_input_time g) (last_key_time g) v (total_price g)
    (scanned_item g) (receipt g) (cart_scroll_offset g) (timer_score g)
    (timer_correct g) (timer_start_time g) (current_target g)
    (timer_items_found g) (learning_current_index g)
    (learning_product_order g) (last_scan_time g).

Definition set_total_price (g : Game) (v : num) : Game :=
  Build_Game (state g) (skus g) (keyboard_shortcuts g) (barcode_buffer g)
    (barcode_input_time g) (last_key_time g) (cart g) v
    (scanned_item g) (receipt g) (cart_scroll_offset g) (timer_score g)
    (timer_correct g) (timer_start_time g) (current_target g)
    (timer_items_found g) (learning_current_index g)
    (learning_product_order g) (last_scan_time g).

Definition set_scanned_item (g : Game) (v : Message) : Game :=
  Build_Game (state g) (skus g) (keyboard_shortcuts g) (barcode_buffer g)
    (barcode_input_time g) (last_key_time g) (cart g) (total_price g)
    v (receipt g) (cart_scroll_offset g) (timer_score g)
    (timer_correct g) (timer_start_time g) (current_target g)
    (timer_items_found g) (learning_current_index g)
    (learning_product_order g) (last_scan_time g).

Definition set_receipt (g : Game) (v : list ReceiptEntry) : Game :=
  Build_Game (state g) (skus g) (keyboard_shortcuts g) (barcode_buffer g)
    (barcode_input_time g) (last_key_time g) (cart g) (total_price g)
    (scanned_item g) v (cart_scroll_offset g) (timer_score g)
    (timer_correct g) (timer_start_time g) (current_target g)
    (timer_items_found g) (learning_current_index g)
    (learning_product_order g) (last_scan_time g).

Definition set_cart_scroll_offset (g : Game) (v : Z) : Game :=
  Build_Game (state g) (skus g) (keyboard_shortcuts g) (barcode_buffer g)
    (barcode_input_time g) (last_key_time g) (cart g) (total_price g)
    (scanned_item g) (receipt g) v (timer_score g)
    (timer_correct g) (timer_start_time g) (current_target g)
    (timer_items_found g) (learning_current_index g)
    (learning_product_order g) (last_scan_time g).

Definition set_timer_score (g : Game) (v : Z) : Game :=
  Build_Game (state g) (skus g) (keyboard_shortcuts g) (barcode_buffer g)
    (barcode_input_time g) (last_key_time g) (cart g) (total_price g)
    (scanned_item g) (receipt g) (cart_scroll_offset g) v
    (timer_correct g) (timer_start_time g) (current_target g)
    (timer_items_found g) (learning_current_index g)
    (learning_product_order g) (last_scan_time g).

Definition set_timer_correct (g : Game) (v : Z) : Game :=
  Build_Game (state g) (skus g) (keyboard_shortcuts g) (barcode_buffer g)
    (barcode_input_time g) (last_key_time g) (cart g) (total_price g)
    (scanned_item g) (receipt g) (cart_scroll_offset g) (timer_score g)
    v (timer_start_time g) (current_target g)
    (timer_items_found g) (learning_current_index g)
    (learning_product_order g) (last_scan_time g).

Definition set_timer_start_time (g : Game) (v : Z) : Game :=
  Build_Game (state g) (skus g) (keyboard_shortcuts g) (barcode_buffer g)
    (barcode_input_time g) (last_key_time g) (cart g) (total_price g)
    (scanned_item g) (receipt g) (cart_scroll_offset g) (timer_score g)
    (timer_correct g) v (current_target g)
    (timer_items_found g) (learning_current_index g)
    (learning_product_order g) (last_scan_time g).

Definition set_current_target (g : Game) (v : option Product) : Game :=
  Build_Game (state g) (skus g) (keyboard_shortcuts g) (barcode_buffer g)
    (barcode_input_time g) (last_key_time g) (cart g) (total_price g)
    (scanned_item g) (receipt g) (cart_scroll_offset g) (timer_score g)
    (timer_correct g) (timer_start_time g) v
    (timer_items_found g) (learning_current_index g)
    (learning_product_order g) (last_scan_time g).

Definition set_timer_items_found (g : Game) (v : list string) : Game :=
  Build_Game (state g) (skus g) (keyboard_shortcuts g) (barcode_buffer g)
    (barcode_input_time g) (last_key_time g) (cart g) (total_price g)
    (scanned_item g) (receipt g) (cart_scroll_offset g) (timer_score g)
    (timer_correct g) (timer_start_time g) (current_target g)
    v (learning_current_index g)
    (learning_product_order g) (last_scan_time g).

Definition set_learning_current_index (g : Game) (v : nat) : Game :=
  Build_Game (state g) (skus g) (keyboard_shortcuts g) (barcode_buffer g)
    (barcode_input_time g) (last_key_time g) (cart g) (total_price g)
    (scanned_item g) (receipt g) (cart_scroll_offset g) (timer_score g)
    (timer_correct g) (timer_start_time g) (current_target g)
    (timer_items_found g) v
    (learning_product_order g) (last_scan_time g).

Definition set_learning_product_order (g : Game) (v : list Product) : Game :=
  Build_Game (state g) (skus g) (keyboard_shortcuts g) (barcode_buffer g)
    (barcode_input_time g) (last_key_time g) (cart g) (total_price g)
    (scanned_item g) (receipt g) (cart_scroll_offset g) (timer_score g)
    (timer_correct g) (timer_start_time g) (current_target g)
    (timer_items_found g) (learning_current_index g)
    v (last_scan_time g).

Definition set_last_scan_time (g : Game) (v : Z) : Game :=
  Build_Game (state g) (skus g) (keyboard_shortcuts g) (barcode_buffer g)
    (barcode_input_time g) (last_key_time g) (cart g) (total_price g)
    (scanned_item g) (receipt g) (cart_scroll_offset g) (timer_score g)
    (timer_correct g) (timer_start_time g) (current_target g)
    (timer_items_found g) (learning_current_index g)
    (learning_product_order g) v.

(** ** Barcode disambiguator *)

(** [process_barcode_input(key_char)]: one character event.  Returns the
    completed barcode, or [None]. *)
Definition process_barcode_input (g : Game) (key_char : ascii)
    (current_time : Z) : Game * option string :=
  (* Reset buffer if timeout exceeded *)
  let g :=
    if current_time - barcode_input_time g >? barcode_timeout
    then set_barcode_buffer g "" else g in
  (* Detect if this is scanner input (very fast keystrokes) *)
  let time_since_last_key := current_time - last_key_time g in
  let is_scanner_speed := time_since_last_key <? scanner_speed_threshold in
  if isalnum key_char then
    if negb (nonempty (barcode_buffer g)) || is_scanner_speed then
      let g := set_barcode_buffer g (barcode_buffer g +:+ String key_char "") in
      let g := set_barcode_input_time g current_time in
      let g := set_last_key_time g current_time in
      let g :=
        if (0 <? String.length (barcode_buffer g))%nat
        then set_scanned_item g (MsgScanning (barcode_buffer g)) else g in
      if (8 <=? String.length (barcode_buffer g))%nat then
        if has_key (skus g) (barcode_buffer g) then
          let barcode := barcode_buffer g in
          (set_barcode_buffer g "", Some barcode)
        else if (13 <=? String.length (barcode_buffer g))%nat then
          let barcode := barcode_buffer g in
          (set_barcode_buffer g "", Some barcode)
        else (g, None)
      else (g, None)
    else
      (* Manual keyboard input - reset buffer for single key presses *)
      let g := set_barcode_buffer g (String key_char "") in
      let g := set_barcode_input_time g current_time in
      let g := set_last_key_time g current_time in
      (g, None)
  else (g, None).

(** [process_barcode_complete(complete_barcode)]: the Enter key. *)
Definition process_barcode_complete (g : Game) (complete_barcode : string)
    : Game * option string :=
  if nonempty complete_barcode && (8 <=? String.length complete_barcode)%nat
  then
    let clean_barcode := keep_alnum complete_barcode in
    if has_key (skus g) clean_barcode
    then (set_barcode_buffer g "", Some clean_barcode)
    else (g, None)
  else (g, None).

(** ** Product catalog *)

(** [lookup_product(barcode_or_key)].  A product record is a dict with the
    keys of [products.json], hence never empty, so the source's tests
    [if product:] are tests for [None]. *)
Definition lookup_product (g : Game) (barcode_or_key : string)
    : option Product :=
  (* First check if it's a keyboard shortcut *)
  match keyboard_shortcuts g !! barcode_or_key with
  | Some sku => skus g !! sku
  | None =>
      (* Then check if it's a direct SKU lookup *)
      skus g !! barcode_or_key
  end.

(** ** Cart ledger *)

(** The dict [self.cart] in insertion order. [cart_get] is [cart.get(k)],
    [cart_alter f k] updates the value stored under [k] in place,
    [cart_del k] is [del cart[k]]. *)
Fixpoint cart_get (c : list (string * CartItem)) (k : string)
    : option CartItem :=
  match c with
  | [] => None
  | (k', item) :: rest => if String.eqb k' k then Some item else cart_get rest k
  end.

Fixpoint cart_alter (f : CartItem -> CartItem) (k : string)
    (c : list (string * CartItem)) : list (string * CartItem) :=
  match c with
  | [] => []
  | (k', item) :: rest =>
      if String.eqb k' k then (k', f item) :: rest
      else (k', item) :: cart_alter f k rest
  end.

Fixpoint cart_del (k : string) (c : list (string * CartItem))
    : list (string * CartItem) :=
  match c with
  | [] => []
  | (k', item) :: rest =>
      if String.eqb k' k then rest else (k', item) :: cart_del k rest
  end.

Definition cart_has (c : list (string * CartItem)) (k : string) : bool :=
  match cart_get c k with Some _ => true | None => false end.

Definition set_quantity (it : CartItem) (v : Z) : CartItem :=
  Build_CartItem (item_sku it) (item_name it) (item_price it) v
    (item_total_price it) (item_category it) (item_description it)
    (image_path it) (first_added it).

Definition set_item_total_price (it : CartItem) (v : num) : CartItem :=
  Build_CartItem (item_sku it) (item_name it) (item_price it) (quantity it)
    v (item_category it) (item_description it)
    (image_path it) (first_added it).

(** [add_to_cart(product, sku)]; returns the confirmation text. *)
Definition add_to_cart (g : Game) (product : Product) (sku : string)
    (wall : num) (stamp : string) : Game * Message :=
  let g :=
    if cart_has (cart g) sku then
      (* Item already in cart, increase quantity *)
      set_cart g
        (cart_alter
           (fun it =>
              set_item_total_price (set_quantity it (quantity it + 1))
                (nadd (item_total_price it) (price product)))
           sku (cart g))
    else
      (* New item, add to cart *)
      set_cart g
        (cart g ++
         [(sku, {| item_sku := sku;
                   item_name := name product;
                   item_price := price product;
                   quantity := 1;
                   item_total_price := price product;
                   item_category := category product;
                   item_description := description product;
                   image_path := image product;
                   first_added := wall |})]) in
  let g := set_total_price g (nadd (total_price g) (price product)) in
  (* Update receipt *)
  let g :=
    set_receipt g
      (receipt g ++
       [{| entry_item := name product;
           entry_price := price product;
           entry_timestamp := stamp |}]) in
  (* the key is present at this point; the default is never used *)
  let qty := from_option quantity 0 (cart_get (cart g) sku) in
  (g, MsgAdded (name product) (price product) qty).

(** [clear_cart()] *)
Definition clear_cart (g : Game) : Game :=
  let g := set_cart g [] in
  let g := set_total_price g nzero in
  let g := set_receipt g [] in
  let g := set_cart_scroll_offset g 0 in
  set_scanned_item g MsgCartCleared.

(** The loop of [remove_last_item]: the key whose [first_added] is the
    greatest, starting from [last_time = 0]; the first such key in
    iteration order on ties, [None] when no [first_added] exceeds 0. *)
Definition most_recent (c : list (string * CartItem)) : option string * num :=
  fold_left
    (fun (acc : option string * num) (entry : string * CartItem) =>
       if ngt (first_added (snd entry)) (snd acc)
       then (Some (fst entry), first_added (snd entry))
       else acc)
    c (None, nzero).

(** [remove_last_item()] *)
Definition remove_last_item (g : Game) : Game :=
  match cart g with
  | [] => set_scanned_item g MsgCartEmpty
  | _ :: _ =>
      (* Find the most recently added item *)
      match fst (most_recent (cart g)) with
      | Some last_item_sku =>
          (* [if last_item_sku:] is also false for the empty string *)
          if nonempty last_item_sku then
            match cart_get (cart g) last_item_sku with
            | Some item =>
                (* Remove one quantity *)
                if quantity item >? 1 then
                  let g :=
                    set_cart g
                      (cart_alter
                         (fun it =>
                            set_item_total_price
                              (set_quantity it (quantity it - 1))
                              (nsub (item_total_price it) (item_price it)))
                         last_item_sku (cart g)) in
                  let g :=
                    set_total_price g (nsub (total_price g) (item_price item)) in
                  set_scanned_item g
                    (MsgRemovedOne (item_name item) (quantity item - 1))
                else
                  (* Remove item completely *)
                  let g :=
                    set_total_price g (nsub (total_price g) (item_price item)) in
                  let removed_name := item_name item in
                  let g := set_cart g (cart_del last_item_sku (cart g)) in
                  let g := set_scanned_item g (MsgRemoved removed_name) in
                  (* Adjust scroll if needed *)
                  let total_items := Z.of_nat (length (cart g)) in
                  let max_displayable := if total_items <=? 4 then 4 else 8 in
                  if (cart_scroll_offset g >? 0)
                     && (total_items <=? max_displayable)
                  then set_cart_scroll_offset g 0 else g
            | None => g (* not reached: the loop returns a key of the cart *)
            end
          else g
      | None => g
      end
  end.

(** [sum(item['total_price'] for item in cart.values())], the right-hand
    side of the ledger invariant. *)
Definition lines_total (c : list (string * CartItem)) : num :=
  fold_left (fun acc entry => nadd acc (item_total_price (snd entry))) c nzero.

(** [start_retail_mode()] *)
Definition start_retail_mode (g : Game) : Game :=
  let g := set_state g RETAIL_MODE in
  let g := set_cart g [] in
  let g := set_total_price g nzero in
  let g := set_scanned_item g MsgNone in
  let g := set_receipt g [] in
  let g := set_barcode_buffer g "" in
  let g := set_barcode_input_time g 0 in
  let g := set_last_key_time g 0 in
  set_cart_scroll_offset g 0.

(** ** Scan router *)

(** [scan_item(barcode_or_key)], retail mode. *)
Definition scan_item (g : Game) (barcode_or_key : string)
    (current_time : Z) (wall : num) (stamp : string) : Game :=
  if current_time - last_scan_time g <? scan_cooldown then g
  else
    let g := set_last_scan_time g current_time in
    match lookup_product g barcode_or_key with
    | Some product =>
        (* Use the actual SKU for cart item *)
        let sku :=
          match keyboard_shortcuts g !! barcode_or_key with
          | Some target => target
          | None => barcode_or_key
          end in
        let '(g, msg) := add_to_cart g product sku wall stamp in
        set_scanned_item g msg
    | None => set_scanned_item g MsgProductNotFound
    end.

(** ** Learning session *)

(** [generate_new_target()] *)
Definition generate_new_target (g : Game) : Game :=
  if (learning_current_index g <? length (learning_product_order g))%nat then
    let g :=
      set_current_target g
        (learning_product_order g !! learning_current_index g) in
    set_learning_current_index g (learning_current_index g + 1)%nat
  else
    (* All products have been shown *)
    set_current_target g None.

(** [start_timer_mode()]; [shuffle] is what [random.shuffle] does to the
    list of products on this call. *)
Definition start_timer_mode (g : Game) (current_time : Z)
    (shuffle : list Product -> list Product) : Game :=
  let g := set_state g TIMER_MODE in
  let g := set_timer_score g 0 in
  let g := set_timer_correct g 0 in
  let g := set_timer_start_time g current_time in
  let g := set_timer_items_found g [] in
  let g := set_learning_current_index g 0%nat in
  let g := set_scanned_item g MsgNone in
  (* Reset barcode input state *)
  let g := set_barcode_buffer g "" in
  let g := set_barcode_input_time g 0 in
  let g := set_last_key_time g 0 in
  (* Randomize product order *)
  let all_items := (map_to_list (skus g)).*2 in
  let g := set_learning_product_order g (shuffle all_items) in
  generate_new_target g.

(** [scan_timer_item(barcode_or_key)], learning mode. *)
Definition scan_timer_item (g : Game) (barcode_or_key : string)
    (current_time : Z) : Game :=
  match current_target g with
  | None => g
  | Some target =>
      (* Apply scan cooldown like retail mode *)
      if current_time - last_scan_time g <? scan_cooldown then g
      else
        let g := set_last_scan_time g current_time in
        match lookup_product g barcode_or_key with
        | Some product =>
            if String.eqb (name product) (name target) then
              (* Correct item! *)
              let g := set_timer_correct g (timer_correct g + 1) in
              let g := set_timer_score g (timer_score g + 1) in
              let g :=
                set_timer_items_found g
                  (timer_items_found g ++ [name product]) in
              let g := set_scanned_item g (MsgCorrect (name product)) in
              generate_new_target g
            else
              (* Wrong item - move to next product automatically *)
              let g := set_scanned_item g (MsgMovingOn (name product)) in
              generate_new_target g
        | None =>
            (* Invalid barcode - move to next product *)
            let g := set_scanned_item g MsgNotFoundMovingOn in
            generate_new_target g
        end
  end.

End Model.

(** ** Runs *)

Section Runs.
Context {NUM : Number}.

(** Character events [(key_char, current_time)] fed one at a time to
    [process_barcode_input]; the result is the final state and what each
    call returned. *)
Fixpoint feed (g : Game) (events : list (ascii * Z))
    : Game * list (option string) :=
  match events with
  | [] => (g, [])
  | (key_char, current_time) :: rest =>
      let '(g1, out) := process_barcode_input g key_char current_time in
      let '(g2, outs) := feed g1 rest in
      (g2, out :: outs)
  end.

(** The characters of a list of events, as a string. *)
Fixpoint typed (events : list (ascii * Z)) : string :=
  match events with
  | [] => ""
  | (key_char, _) :: rest => String key_char (typed rest)
  end.

(** Every event after the first comes less than
    [scanner_speed_threshold] after the one before it. *)
Fixpoint burst (previous : Z) (events : list (ascii * Z)) : Prop :=
  match events with
  | [] => True
  | (_, current_time) :: rest =>
      current_time - previous < scanner_speed_threshold
      /\ burst current_time rest
  end.

(** A run of events continues the buffer of [g] as one scanner burst:
    the first event finds the buffer empty, or comes within the buffer
    timeout and faster than the scanner threshold; the others are a
    [burst]. *)
Definition continues (g : Game) (events : list (ascii * Z)) : Prop :=
  match events with
  | [] => True
  | (_, current_time) :: rest =>
      (barcode_buffer g = ""
       \/ (current_time - barcode_input_time g <= barcode_timeout
           /\ current_time - last_key_time g < scanner_speed_threshold))
      /\ burst current_time rest
  end.

(** The specification's "time the buffer was (re)started", which the
    source keeps no field for: a call (re)starts the buffer when it
    accepts the character and either finds the buffer empty (after the
    stale check) or replaces it (manual input). *)
Definition restarts_buffer (g : Game) (key_char : ascii)
    (current_time : Z) : bool :=
  let buffer :=
    if current_time - barcode_input_time g >? barcode_timeout
    then "" else barcode_buffer g in
  isalnum key_char
  && (negb (nonempty buffer)
      || negb (current_time - last_key_time g <? scanner_speed_threshold)).

Fixpoint spec_buffer_start_time (g : Game) (start : Z)
    (events : list (ascii * Z)) : Z :=
  match events with
  | [] => start
  | (key_char, current_time) :: rest =>
      spec_buffer_start_time
        (fst (process_barcode_input g key_char current_time))
        (if restarts_buffer g key_char current_time
         then current_time else start)
        rest
  end.

(** The two scan handlers the router dispatches to. *)
Inductive Handler := Retail | Learning.

Definition submit (h : Handler) (g : Game) (code : string)
    (current_time : Z) (wall : num) (stamp : string) : Game :=
  match h with
  | Retail => scan_item g code current_time wall stamp
  | Learning => scan_timer_item g code current_time
  end.

(** A call passes the gate of its handler: the cooldown has elapsed
    (and, in learning mode, there is a target). *)
Definition accepted (h : Handler) (g : Game) (current_time : Z) : Prop :=
  scan_cooldown <= current_time - last_scan_time g
  /\ match h with
     | Retail => True
     | Learning => current_target g <> None
     end.

(** Cart operations. *)
Inductive CartOp :=
| OpAdd (product : Product) (sku : string) (wall : num) (stamp : string)
| OpRemoveLast
| OpClear.

Definition cart_step (g : Game) (op : CartOp) : Game :=
  match op with
  | OpAdd product sku wall stamp => fst (add_to_cart g product sku wall stamp)
  | OpRemoveLast => remove_last_item g
  | OpClear => clear_cart g
  end.

Definition run_cart (g : Game) (ops : list CartOp) : Game :=
  fold_left cart_step ops g.


(** The three ways the ledger writes a cart line: the line inserted by
    [add_to_cart] for a new SKU, the update it applies to an existing
    line, and the update [remove_last_item] applies when the quantity
    exceeds one. *)
Definition new_line (product : Product) (sku : string) (wall : num)
    : CartItem :=
  {| item_sku := sku;
     item_name := name product;
     item_price := price product;
     quantity := 1;
     item_total_price := price product;
     item_category := category product;
     item_description := description product;
     image_path := image product;
     first_added := wall |}.

Definition line_added (product : Product) (it : CartItem) : CartItem :=
  set_item_total_price (set_quantity it (quantity it + 1))
    (nadd (item_total_price it) (price product)).

Definition line_removed (it : CartItem) : CartItem :=
  set_item_total_price (set_quantity it (quantity it - 1))
    (nsub (item_total_price it) (item_price it)).

(** Two values of a cart line agree on what identifies the line. *)
Definition same_line (it it' : CartItem) : Prop :=
  first_added it' = first_added it
  /\ item_sku it' = item_sku it
  /\ item_name it' = item_name it
  /\ item_price it' = item_price it.

(** The learning session stands at position [k] of [order]: the target
    is the [k]-th product (none when [k] is past the end) and the index
    is one further, capped at the length. *)
Definition on_target (order : list Product) (k : nat) (g : Game) : Prop :=
  learning_product_order g = order
  /\ current_target g = order !! k
  /\ learning_current_index g = Nat.min (S k) (length order).

(** Scans [(code, current_time)] evaluated in learning mode. *)
Definition evaluate_all (g : Game) (scans : list (string * Z)) : Game :=
  fold_left (fun g scan => scan_timer_item g (fst scan) (snd scan)) scans g.

(** Each scan comes at least [scan_cooldown] after the previous one, the
    first one after [last]. *)
Fixpoint spaced (last : Z) (scans : list (string * Z)) : Prop :=
  match scans with
  | [] => True
  | (_, current_time) :: rest =>
      scan_cooldown <= current_time - last /\ spaced current_time rest
  end.

End Runs.

(** ** Concrete catalogs and runs (binary64 prices) *)

Section Examples.
#[local] Existing Instance py_float.

Definition mk_product (n : string) (p : float) (c d i : string) : Product :=
  {| name := n; price := p; category := c; description := d; image := i |}.

(** The default catalog that [load_products] writes when [products.json]
    is missing. *)
Definition default_skus : gmap string Product :=
  list_to_map [
    ("7501234567890", mk_product "White Bread" 2.20 "Bakery" "Fresh white bread loaf" "images/bread.png");
    ("7501234567891", mk_product "Whole Milk" 2.80 "Dairy" "1 liter whole milk" "images/milk.png");
    ("7501234567892", mk_product "Red Apples" 1.50 "Produce" "Fresh red apples per kg" "images/apples.png");
    ("7501234567893", mk_product "Spaghetti Pasta" 1.30 "Pantry" "500g spaghetti pasta" "images/pasta.png");
    ("7501234567894", mk_product "Cheddar Cheese" 3.90 "Dairy" "Sharp cheddar cheese block" "images/cheese.png");
    ("7501234567895", mk_product "Bananas" 0.80 "Produce" "Fresh bananas per kg" "images/bananas.png");
    ("7501234567896", mk_product "Corn Flakes" 4.50 "Breakfast" "Large box corn flakes cereal" "images/cereal.png");
    ("7501234567897", mk_product "Greek Yogurt" 2.60 "Dairy" "Plain Greek yogurt 500g" "images/yogurt.png");
    ("7501234567898", mk_product "Wheat Crackers" 2.90 "Snacks" "Whole wheat crackers" "images/crackers.png");
    ("7501234567899", mk_product "Orange Juice" 2.40 "Beverages" "Fresh orange juice 1L" "images/juice.png")
  ].

Definition default_shortcuts : gmap string string :=
  list_to_map [
    ("1", "7501234567890"); ("2", "7501234567891"); ("3", "7501234567892");
    ("4", "7501234567893"); ("5", "7501234567894"); ("6", "7501234567895");
    ("7", "7501234567896"); ("8", "7501234567897"); ("9", "7501234567898");
    ("0", "7501234567899")
  ].

Definition default_game : Game := init default_skus default_shortcuts.

Definition whole_milk : Product :=
  mk_product "Whole Milk" 2.80 "Dairy" "1 liter whole milk" "images/milk.png".

(** The catalog of the specification's scenarios: one product with an
    8-character code. *)
Definition apple : Product := mk_product "Apple" 1.50 "Produce" "" "".

Definition demo_game : Game := init {[ "12345678" := apple ]} ∅.

(** The characters of "12345678", 10 ms apart. *)
Definition demo_scan : list (ascii * Z) :=
  [("1"%char, 5000); ("2"%char, 5010); ("3"%char, 5020); ("4"%char, 5030);
   ("5"%char, 5040); ("6"%char, 5050); ("7"%char, 5060); ("8"%char, 5070)].

(** A catalog with a 7-character SKU. *)
Definition short_sku_game : Game :=
  init {[ "1234567" := mk_product "Sticker" 0.50 "Toys" "" "" ]} ∅.

(** A catalog in which the code "1" is both a SKU and a shortcut for
    another SKU. *)
Definition sticker : Product := mk_product "Sticker" 0.50 "Toys" "" "".
Definition bread : Product :=
  mk_product "White Bread" 2.20 "Bakery" "Fresh white bread loaf" "images/bread.png".

Definition overlap_game : Game :=
  init (<[ "1" := sticker ]> {[ "7501234567890" := bread ]})
       {[ "1" := "7501234567890" ]}.

(** Eleven characters 95 ms apart, the first at 1000 ms: a slow burst
    that is still below the scanner threshold at every step. *)
Definition slow_burst : list (ascii * Z) :=
  [("a"%char, 1000); ("b"%char, 1095); ("c"%char, 1190); ("d"%char, 1285);
   ("e"%char, 1380); ("f"%char, 1475); ("g"%char, 1570); ("h"%char, 1665);
   ("i"%char, 1760); ("j"%char, 1855); ("k"%char, 1950)].



(** One large and one small amount. *)
Definition yacht : Product := mk_product "Yacht" 1e16 "Toys" "" "".
Definition one_euro_coin : Product := mk_product "Coin" 1.0 "Toys" "" "".

Definition large_amount_ops : list CartOp :=
  [OpAdd yacht "a" 1700000000.0%float "12:00:00";
   OpAdd one_euro_coin "b" 1700000001.0%float "12:00:01";
   OpAdd one_euro_coin "b" 1700000002.0%float "12:00:02"].

(** Three adds and three removals of one product. *)
Definition add3_remove3_ops (p : Product) (sku : string) : list CartOp :=
  [OpAdd p sku 1700000000.0%float "12:00:00";
   OpAdd p sku 1700000001.0%float "12:00:01";
   OpAdd p sku 1700000002.0%float "12:00:02";
   OpRemoveLast; OpRemoveLast; OpRemoveLast].

End Examples.

(** ** The ledger invariant in exact arithmetic *)

Section ExactDefinitions.
#[local] Existing Instance exact_Z.



(** The specification's scenario in cents: an apple at 1.50. *)
Definition apple_cents : Product :=
  {| name := "Apple"; price := 150; category := "Produce";
     description := ""; image := "" |}.

Definition pear_cents : Product :=
  {| name := "Pear"; price := 95; category := "Produce";
     description := ""; image := "" |}.

Definition cents_game : Game :=
  init (<[ "12345678" := apple_cents ]> {[ "87654321" := pear_cents ]}) ∅.


Definition cents_ops : list CartOp :=
  [OpAdd apple_cents "12345678" 1700000000 "12:00:00";
   OpAdd pear_cents "87654321" 1700000001 "12:00:01";
   OpAdd apple_cents "12345678" 1700000002 "12:00:02";
   OpRemoveLast;
   OpAdd pear_cents "87654321" 1700000003 "12:00:03";
   OpRemoveLast; OpRemoveLast].

End ExactDefinitions.

(** ** Key handlers, serial input and further runs *)

(** [str.isdigit] on a one-character string whose code point is below
    256. *)
Definition isdigit (c : ascii) : bool :=
  let n := N_of_ascii c in
  ((48 <=? n) && (n <=? 57) || (n =? 178) || (n =? 179) || (n =? 185))%N.

(** Every character of the string is alphanumeric. *)
Fixpoint all_alnum (s : string) : bool :=
  match s with
  | EmptyString => true
  | String c rest => isalnum c && all_alnum rest
  end.

(** [s.isalnum()] on a string: non-empty and every character
    alphanumeric. *)
Definition str_isalnum (s : string) : bool := nonempty s && all_alnum s.

(** One pass of the loop body of [read_serial_scanner] that received
    [text] (already decoded and stripped): the local [barcode_buffer]
    afterwards, and what was put on [serial_queue]. *)
Definition serial_chunk (barcode_buffer : string) (text : string)
    : string * list string :=
  if nonempty text then
    (* Check if this looks like a complete barcode *)
    if (8 <=? String.length text)%nat && str_isalnum text then
      (barcode_buffer, [text])
    else
      (* Handle partial data *)
      let barcode_buffer := barcode_buffer +:+ text in
      if (8 <=? String.length barcode_buffer)%nat && str_isalnum barcode_buffer
      then ("", [barcode_buffer])
      else (barcode_buffer, [])
  else (barcode_buffer, []).

(** [read_serial_scanner()] over the texts received in turn, starting
    from the given local buffer (the method starts from [""]). *)
Fixpoint read_serial_scanner (barcode_buffer : string) (texts : list string)
    : string * list string :=
  match texts with
  | [] => (barcode_buffer, [])
  | text :: rest =>
      let '(barcode_buffer, queued) := serial_chunk barcode_buffer text in
      let '(barcode_buffer, queued_later) :=
        read_serial_scanner barcode_buffer rest in
      (barcode_buffer, queued ++ queued_later)
  end.

(** A text that the reader queues as it stands. *)
Definition complete_text (text : string) : bool :=
  (8 <=? String.length text)%nat && str_isalnum text.

Section Handlers.
Context {NUM : Number}.

(** A key press that [handle_events] decoded to the character
    [key_char] ([0]-[9], [a]-[z], keypad digits), with the clock values
    read while it is handled: [pygame.time.get_ticks()] in
    [process_barcode_input] and again in the scan handler, [time.time()]
    and [time.strftime] in [add_to_cart]. *)
Record KeyPress := {
  key_char : ascii;
  input_clock : Z;
  scan_clock : Z;
  wall_clock : num;
  stamp_text : string
}.

(** [handle_events], state [RETAIL_MODE], a character key that is not
    one of the command keys: "Try barcode input first", else a digit is
    used as a keyboard shortcut. *)
Definition retail_key_char (g : Game) (k : KeyPress) : Game :=
  let '(g, barcode) :=
    process_barcode_input g (key_char k) (input_clock k) in
  let as_shortcut :=
    if isdigit (key_char k)
    then scan_item g (String (key_char k) "") (scan_clock k) (wall_clock k)
           (stamp_text k)
    else g in
  match barcode with
  | Some code =>
      if nonempty code
      then scan_item g code (scan_clock k) (wall_clock k) (stamp_text k)
      else as_shortcut
  | None => as_shortcut
  end.

(** [handle_events], state [TIMER_MODE], a character key. *)
Definition timer_key_char (g : Game) (k : KeyPress) : Game :=
  let '(g, barcode) :=
    process_barcode_input g (key_char k) (input_clock k) in
  let as_shortcut :=
    if isdigit (key_char k)
    then scan_timer_item g (String (key_char k) "") (scan_clock k)
    else g in
  match barcode with
  | Some code =>
      if nonempty code then scan_timer_item g code (scan_clock k)
      else as_shortcut
  | None => as_shortcut
  end.

(** The character keys of one mode, pressed in turn. *)
Definition key_press (h : Handler) (g : Game) (k : KeyPress) : Game :=
  match h with
  | Retail => retail_key_char g k
  | Learning => timer_key_char g k
  end.

Definition key_presses (h : Handler) (g : Game) (keys : list KeyPress)
    : Game :=
  fold_left (key_press h) keys g.

(** The letter keys that [handle_events] takes as commands in
    [RETAIL_MODE] before it comes to barcode input: checkout, remove
    last item, clear cart, print receipt. *)
Definition retail_command (c : ascii) : bool :=
  match c with
  | "x"%char | "p"%char | "c"%char | "r"%char => true
  | _ => false
  end.

(** The key reaches the barcode input of the mode. *)
Definition reaches_input (h : Handler) (k : KeyPress) : Prop :=
  match h with
  | Retail => retail_command (key_char k) = false
  | Learning => True
  end.

(** A barcode taken from [serial_queue], with the clock values read
    while it is processed. *)
Record QueuedScan := {
  queued_barcode : string;
  queued_clock : Z;
  queued_wall : num;
  queued_stamp : string
}.

(** The body of the loop of [check_serial_scanner] for one barcode. *)
Definition process_queued (g : Game) (q : QueuedScan) : Game :=
  match state g with
  | RETAIL_MODE =>
      scan_item g (queued_barcode q) (queued_clock q) (queued_wall q)
        (queued_stamp q)
  | TIMER_MODE => scan_timer_item g (queued_barcode q) (queued_clock q)
  | _ => g
  end.

(** [check_serial_scanner()]: the queue is drained, each barcode
    processed in turn. *)
Definition check_serial_scanner (g : Game) (queue : list QueuedScan) : Game :=
  fold_left process_queued queue g.

(** All clock values of the drained barcodes lie in one window shorter
    than the cooldown. *)
Definition one_window (start : Z) (queue : list QueuedScan) : Prop :=
  Forall (fun q => start <= queued_clock q
                   /\ queued_clock q - start < scan_cooldown) queue.

(** Two states agree on everything but the input buffer, its two
    timestamps and the status line. *)
Definition same_except_input (g g' : Game) : Prop :=
  state g' = state g
  /\ skus g' = skus g
  /\ keyboard_shortcuts g' = keyboard_shortcuts g
  /\ cart g' = cart g
  /\ total_price g' = total_price g
  /\ receipt g' = receipt g
  /\ cart_scroll_offset g' = cart_scroll_offset g
  /\ timer_score g' = timer_score g
  /\ timer_correct g' = timer_correct g
  /\ timer_start_time g' = timer_start_time g
  /\ current_target g' = current_target g
  /\ timer_items_found g' = timer_items_found g
  /\ learning_current_index g' = learning_current_index g
  /\ learning_product_order g' = learning_product_order g
  /\ last_scan_time g' = last_scan_time g.

(** Every event comes at least [scanner_speed_threshold] after the one
    before it. *)
Fixpoint slow (previous : Z) (events : list (ascii * Z)) : Prop :=
  match events with
  | [] => True
  | (_, current_time) :: rest =>
      scanner_speed_threshold <= current_time - previous
      /\ slow current_time rest
  end.

(** No accumulation of the buffer before the last event is a key of
    [catalog]. *)
Fixpoint no_key_before_end {V : Type} (catalog : gmap string V)
    (buffer : string) (events : list (ascii * Z)) : Prop :=
  match events with
  | [] => True
  | (c, _) :: rest =>
      match rest with
      | [] => True
      | _ :: _ =>
          has_key catalog (buffer +:+ String c "") = false
          /\ no_key_before_end catalog (buffer +:+ String c "") rest
      end
  end.

(** The buffer is one the disambiguator builds: alphanumeric, at most 12
    characters. *)
Definition buffer_ok (g : Game) : Prop :=
  all_alnum (barcode_buffer g) = true
  /\ (String.length (barcode_buffer g) <= 12)%nat.

(** A code the disambiguator may return. *)
Definition code_ok (g : Game) (code : string) : Prop :=
  all_alnum code = true
  /\ (8 <= String.length code <= 13)%nat
  /\ (has_key (skus g) code = true \/ String.length code = 13%nat).

(** Every shortcut points to a SKU of the catalog. *)
Definition catalog_ok (g : Game) : Prop :=
  forall key target,
    keyboard_shortcuts g !! key = Some target -> is_Some (skus g !! target).

(** The events of retail mode that reach the ledger. *)
Inductive RetailEvent :=
| EvScan (code : string) (current_time : Z) (wall : num) (stamp : string)
| EvRemoveLast
| EvClear.

Definition retail_step (g : Game) (ev : RetailEvent) : Game :=
  match ev with
  | EvScan code current_time wall stamp =>
      scan_item g code current_time wall stamp
  | EvRemoveLast => remove_last_item g
  | EvClear => clear_cart g
  end.

Definition run_retail (g : Game) (events : list RetailEvent) : Game :=
  fold_left retail_step events g.

(** [sum(item['quantity'] for item in self.cart.values())], the item
    count of [generate_receipt]. *)
Definition total_items (c : list (string * CartItem)) : Z :=
  fold_left (fun acc entry => acc + quantity (snd entry)) c 0.

(** The cart is a well-formed dict of lines: distinct keys, each line
    stored under its own SKU with a quantity of at least one. *)
Definition cart_ok (c : list (string * CartItem)) : Prop :=
  List.NoDup (map fst c)
  /\ Forall (fun entry => item_sku (snd entry) = fst entry
                          /\ 1 <= quantity (snd entry)) c.

(** The score of the learning session is consistent with its progress
    through [order]. *)
Definition scoring_ok (g : Game) : Prop :=
  timer_score g = timer_correct g
  /\ timer_correct g = Z.of_nat (length (timer_items_found g))
  /\ (learning_current_index g <= length (learning_product_order g))%nat
  /\ (match current_target g with
      | Some _ => timer_correct g < Z.of_nat (learning_current_index g)
      | None => timer_correct g
                <= Z.of_nat (length (learning_product_order g))
      end).

(** [handle_events], state [RETAIL_MODE], the keys UP and DOWN: scroll
    in the cart. *)
Definition scroll_up (g : Game) : Game :=
  if cart_scroll_offset g >? 0
  then set_cart_scroll_offset g (cart_scroll_offset g - 1)
  else g.

Definition scroll_down (g : Game) : Game :=
  (* Dynamic scrolling based on cart size *)
  let total_items := Z.of_nat (length (cart g)) in
  let max_displayable := if total_items <=? 4 then 4 else 8 in
  if total_items >? max_displayable then
    let max_scroll := total_items - max_displayable in
    if cart_scroll_offset g <? max_scroll
    then set_cart_scroll_offset g (cart_scroll_offset g + 1)
    else g
  else g.

(** A run of scroll keys: [true] is UP, [false] is DOWN. *)
Definition scroll (g : Game) (keys : list bool) : Game :=
  fold_left (fun g up => if up : bool then scroll_up g else scroll_down g)
    keys g.

(** No operation of the run is [OpRemoveLast]. *)
Definition no_removal (op : CartOp) : Prop :=
  match op with OpRemoveLast => False | _ => True end.

End Handlers.

Section MoreExamples.
#[local] Existing Instance py_float.

(** The keys of "12345678", 10 ms apart, as a keyboard-emulating
    scanner sends them. *)
Definition key_at (e : ascii * Z) : KeyPress :=
  {| key_char := fst e; input_clock := snd e; scan_clock := snd e;
     wall_clock := 1700000000.0%float; stamp_text := "12:00:00" |}.

Definition demo_first_key : KeyPress := key_at ("1"%char, 5000).

Definition demo_rest_keys : list KeyPress := map key_at (tail demo_scan).

Definition demo_keys : list KeyPress := demo_first_key :: demo_rest_keys.

(** A 13-character code that is not in the default catalog, 10 ms
    apart. *)
Definition unknown_scan : list (ascii * Z) :=
  [("9"%char, 5000); ("7"%char, 5010); ("8"%char, 5020); ("0"%char, 5030);
   ("2"%char, 5040); ("0"%char, 5050); ("1"%char, 5060); ("3"%char, 5070);
   ("7"%char, 5080); ("9"%char, 5090); ("6"%char, 5100); ("2"%char, 5110);
   ("4"%char, 5120)].

(** Three keys typed by hand. *)
Definition typed_by_hand : list (ascii * Z) :=
  [("1"%char, 5000); ("2"%char, 5400); ("3"%char, 6100)].

(** The default catalog with White Bread and Whole Milk in the cart. *)
Definition two_lines_game : Game :=
  run_cart (start_retail_mode default_game)
    [OpAdd bread "7501234567890" 1700000000.0%float "12:00:00";
     OpAdd whole_milk "7501234567891" 1700000005.0%float "12:00:05"].

(** Adds, a removal and more adds. *)
Definition receipt_ops : list CartOp :=
  [OpAdd bread "7501234567890" 1700000000.0%float "12:00:00";
   OpAdd whole_milk "7501234567891" 1700000005.0%float "12:00:05";
   OpAdd bread "7501234567890" 1700000010.0%float "12:00:10";
   OpRemoveLast;
   OpAdd apple "12345678" 1700000020.0%float "12:00:20"].

(** Scans of the learning session over the default catalog. *)
Definition learning_scans : list (string * Z) :=
  [("7501234567899", 1500); ("3", 2500); ("7501234567890", 2600);
   ("nothing", 3500); ("7501234567890", 4500)].

(** The same code arriving from the serial queue. *)
Definition demo_queued : QueuedScan :=
  {| queued_barcode := "12345678"; queued_clock := 5070;
     queued_wall := 1700000000.0%float; queued_stamp := "12:00:00" |}.

(** Three barcodes of the default catalog drained in one frame. *)
Definition drained_batch : list QueuedScan :=
  [{| queued_barcode := "0000000000000"; queued_clock := 5000;
      queued_wall := 1700000000.0%float; queued_stamp := "12:00:00" |};
   {| queued_barcode := "7501234567890"; queued_clock := 5000;
      queued_wall := 1700000000.0%float; queued_stamp := "12:00:00" |};
   {| queued_barcode := "7501234567891"; queued_clock := 5001;
      queued_wall := 1700000000.0%float; queued_stamp := "12:00:00" |}].

End MoreExamples.

Section MoreExactExamples.
#[local] Existing Instance exact_Z.

(** A retail session in cents: accepted, dropped and unresolved scans,
    a removal, a clear and a scan after it. *)
Definition cents_events : list RetailEvent :=
  [EvScan "12345678" 1000 1700000000 "12:00:00";
   EvScan "12345678" 1500 1700000001 "12:00:01";
   EvScan "87654321" 2500 1700000002 "12:00:02";
   EvScan "nothing" 4000 1700000003 "12:00:03";
   EvScan "12345678" 5000 1700000004 "12:00:04";
   EvRemoveLast;
   EvScan "87654321" 6000 1700000005 "12:00:05"].

(** Two lines added at the same clock value. *)
Definition tied_game : Game :=
  run_cart (start_retail_mode cents_game)
    [OpAdd apple_cents "12345678" 1700000000 "12:00:00";
     OpAdd pear_cents "87654321" 1700000000 "12:00:00"].

End MoreExactExamples.

(** * Properties *)

(** ** Strings *)

Lemma append_nil (b : string) : "" +:+ b = b.
Proof. reflexivity. Qed.

Lemma append_cons (x : ascii) (a b : string) :
  String x a +:+ b = String x (a +:+ b).
Proof. reflexivity. Qed.

Lemma string_length_append (a b : string) :
  String.length (a +:+ b) = (String.length a + String.length b)%nat.
Proof.
  induction a as [|x a IH]; [reflexivity|].
  rewrite append_cons. simpl. now rewrite IH.
Qed.

Lemma string_append_assoc (a b c : string) :
  (a +:+ b) +:+ c = a +:+ (b +:+ c).
Proof.
  induction a as [|x a IH]; [reflexivity|].
  rewrite !append_cons. now rewrite IH.
Qed.

Lemma typed_length (events : list (ascii * Z)) :
  String.length (typed events) = length events.
Proof.
  induction events as [|[c t] rest IH]; simpl; [reflexivity | now rewrite IH].
Qed.

(** ** Barcode disambiguator *)

Section Disambiguator.
Context {NUM : Number}.

(** One accepted character: it is appended, both timestamps become the
    time of the call, and the buffer is emitted and cleared exactly when
    it has reached 8 characters and is a catalog key, or has reached 13
    characters. *)
Lemma accepted_character (g : Game) (key_char : ascii) (current_time : Z) :
  isalnum key_char = true ->
  (barcode_buffer g = ""
   \/ (current_time - barcode_input_time g <= barcode_timeout
       /\ current_time - last_key_time g < scanner_speed_threshold)) ->
  let buffer := barcode_buffer g +:+ String key_char "" in
  let r := process_barcode_input g key_char current_time in
  skus (fst r) = skus g
  /\ barcode_input_time (fst r) = current_time
  /\ last_key_time (fst r) = current_time
  /\ (if (8 <=? String.length buffer)%nat
         && (has_key (skus g) buffer || (13 <=? String.length buffer)%nat)
      then snd r = Some buffer /\ barcode_buffer (fst r) = ""
      else snd r = None /\ barcode_buffer (fst r) = buffer).
Proof.
  intros Halnum Happ buffer r. subst buffer r.
  unfold process_barcode_input. rewrite Halnum.
  destruct Happ as [Hempty | [Htimeout Hfast]].
  - assert (Hb : barcode_buffer
                   (if current_time - barcode_input_time g >? barcode_timeout
                    then set_barcode_buffer g "" else g) = "")
      by (destruct (_ >? _); simpl; auto).
    assert (Hs : skus
                   (if current_time - barcode_input_time g >? barcode_timeout
                    then set_barcode_buffer g "" else g) = skus g)
      by (destruct (_ >? _); simpl; auto).
    set (g1 := if _ >? _ then _ else _) in *.
    rewrite Hb, Hempty. simpl.
    rewrite Hs. repeat split.
  - destruct (Z.gtb_spec (current_time - barcode_input_time g) barcode_timeout);
      [lia|].
    destruct (Z.ltb_spec (current_time - last_key_time g)
                scanner_speed_threshold); [|lia].
    rewrite orb_true_r.
    cbn [barcode_buffer set_barcode_buffer set_barcode_input_time
           set_last_key_time set_scanned_item].
    set (buffer := barcode_buffer g +:+ String key_char "").
    destruct (0 <? String.length buffer)%nat;
    cbn [barcode_buffer skus set_barcode_buffer set_barcode_input_time
           set_last_key_time set_scanned_item];
    destruct (8 <=? String.length buffer)%nat;
    destruct (has_key (skus g) buffer);
    destruct (13 <=? String.length buffer)%nat; simpl; auto.
Qed.

(** C1: alphanumeric characters fed one at a time, each within the
    buffer timeout and less than [scanner_speed_threshold] after the
    previous one (the first may also find the buffer empty), whose
    accumulation in the buffer is a catalog key of 8 characters: no call
    before the last returns a code, the call that completes the key
    returns it, and the buffer is empty afterwards. *)
Theorem burst_completes (events : list (ascii * Z)) :
  forall (g : Game) (key : string),
  events <> [] ->
  continues g events ->
  Forall (fun e => isalnum (fst e) = true) events ->
  barcode_buffer g +:+ typed events = key ->
  String.length key = 8%nat ->
  has_key (skus g) key = true ->
  snd (feed g events) = replicate (length events - 1) None ++ [Some key]
  /\ barcode_buffer (fst (feed g events)) = "".
Proof.
  induction events as [|[c t] rest IH]; intros g key Hne Hcont Halnum Hkey Hlen Hin;
    [congruence|].
  destruct Hcont as [Happ Hburst].
  pose proof (Forall_inv Halnum) as Hc. simpl in Hc.
  pose proof (Forall_inv_tail Halnum) as Hrest.
  destruct (accepted_character g c t Hc Happ) as (Hskus & Hit & Hlk & Hout).
  simpl feed. destruct (process_barcode_input g c t) as [g1 out] eqn:Hstep.
  cbn [fst snd] in Hskus, Hit, Hlk, Hout.
  assert (Hlen' : (String.length (barcode_buffer g +:+ String c "")
                   + length rest = 8)%nat).
  { rewrite <- Hlen, <- Hkey. simpl typed.
    rewrite !string_length_append. simpl String.length.
    rewrite typed_length. lia. }
  destruct rest as [|[c' t'] rest'].
  - (* the last character *)
    simpl in Hkey. rewrite Hkey in Hout, Hlen'.
    simpl in Hlen'. rewrite Nat.add_0_r in Hlen'. rewrite Hlen', Hin in Hout.
    simpl in Hout. destruct Hout as [-> Hcleared]. simpl. auto.
  - (* a character before the last *)
    assert (Hshort : (8 <=? String.length
                               (barcode_buffer g +:+ String c ""))%nat = false).
    { apply Nat.leb_gt. simpl in Hlen'. lia. }
    rewrite Hshort in Hout. simpl in Hout. destruct Hout as [-> Hbuf].
    destruct (IH g1 key) as [Houts Hfinal].
    + discriminate.
    + destruct Hburst as [Hgap Hburst']. split; [|exact Hburst'].
      right. rewrite Hit, Hlk. unfold barcode_timeout, scanner_speed_threshold in *.
      lia.
    + exact Hrest.
    + rewrite Hbuf, <- Hkey. simpl typed.
      rewrite string_append_assoc. reflexivity.
    + exact Hlen.
    + rewrite Hskus. exact Hin.
    + destruct (feed g1 ((c', t') :: rest')) as [g2 outs].
      simpl in Houts, Hfinal. simpl. split; [|exact Hfinal].
      rewrite Houts. simpl. rewrite Nat.sub_0_r. reflexivity.
Qed.

(** Stripping never lengthens a string. *)
Lemma keep_alnum_length (s : string) :
  (String.length (keep_alnum s) <= String.length s)%nat.
Proof.
  induction s as [|c s IH]; simpl; [lia|].
  destruct (isalnum c); simpl; lia.
Qed.

(** C5, as the code has it: a code is returned exactly when the raw
    buffer itself has at least 8 characters and its alphanumeric
    characters form a catalog key; the code is then the stripped string
    and the buffer is cleared; otherwise nothing changes. *)
Theorem explicit_completion (g : Game) (raw : string) :
  let r := process_barcode_complete g raw in
  ((exists code, snd r = Some code)
   <-> (8 <= String.length raw)%nat /\ has_key (skus g) (keep_alnum raw) = true)
  /\ (forall code, snd r = Some code ->
        code = keep_alnum raw /\ fst r = set_barcode_buffer g "")
  /\ (snd r = None -> fst r = g).
Proof.
  unfold process_barcode_complete.
  assert (Hne : (8 <=? String.length raw)%nat = true -> nonempty raw = true)
    by (destruct raw; simpl; [discriminate | auto]).
  destruct (8 <=? String.length raw)%nat eqn:Hlen.
  - rewrite (Hne eq_refl). simpl andb. cbv zeta.
    apply Nat.leb_le in Hlen.
    destruct (has_key (skus g) (keep_alnum raw)) eqn:Hin; simpl.
    + split; [split; eauto|]. split; [intros code [= <-]; auto | discriminate].
    + split; [split; [intros [code [=]] | intros [_ [=]]]|].
      split; [intros code [=] | auto].
  - rewrite andb_false_r. simpl. apply Nat.leb_gt in Hlen.
    split; [split; [intros [code [=]] | intros [? _]; lia]|].
    split; [intros code [=] | auto].
Qed.

(** The direction of the specification's sentence that holds: a raw
    buffer whose stripped form has at least 8 characters and is a catalog
    key is accepted. *)
Lemma explicit_completion_accepts (g : Game) (raw : string) :
  (8 <= String.length (keep_alnum raw))%nat ->
  has_key (skus g) (keep_alnum raw) = true ->
  process_barcode_complete g raw
  = (set_barcode_buffer g "", Some (keep_alnum raw)).
Proof.
  intros Hlen Hin. pose proof (keep_alnum_length raw) as Hle.
  unfold process_barcode_complete. rewrite Hin.
  assert (H8 : (8 <=? String.length raw)%nat = true) by (apply Nat.leb_le; lia).
  rewrite H8. destruct raw; [simpl in Hle; simpl in Hlen; lia | reflexivity].
Qed.

(** C6, as the code has it: the stale check compares the time of the
    call with [barcode_input_time].  When more than [barcode_timeout] has
    elapsed since then, the old buffer contents play no part in the call:
    it behaves as on an empty buffer, returns nothing, and leaves the
    buffer holding the new character alone (or empty, if the character is
    not alphanumeric). *)
Theorem stale_buffer_cleared (g : Game) (key_char : ascii) (current_time : Z) :
  current_time - barcode_input_time g > barcode_timeout ->
  let r := process_barcode_input g key_char current_time in
  r = process_barcode_input (set_barcode_buffer g "") key_char current_time
  /\ snd r = None
  /\ barcode_buffer (fst r)
     = (if isalnum key_char then String key_char "" else "").
Proof.
  intros Hstale. unfold process_barcode_input.
  cbn [barcode_input_time set_barcode_buffer].
  destruct (Z.gtb_spec (current_time - barcode_input_time g) barcode_timeout);
    [|lia].
  cbn [barcode_buffer set_barcode_buffer last_key_time nonempty negb orb].
  destruct (isalnum key_char); simpl; auto.
Qed.

(** [barcode_input_time] is not the time the buffer was started: every
    accepted character sets it, together with [last_key_time], to the
    time of the call, so the two fields stay equal. *)
Lemma input_time_is_last_key_time (g : Game) (key_char : ascii)
    (current_time : Z) :
  barcode_input_time g = last_key_time g ->
  let g' := fst (process_barcode_input g key_char current_time) in
  barcode_input_time g' = last_key_time g'
  /\ (isalnum key_char = true -> barcode_input_time g' = current_time).
Proof.
  intros Heq. unfold process_barcode_input.
  destruct (current_time - barcode_input_time g >? barcode_timeout);
  cbn [barcode_buffer set_barcode_buffer last_key_time];
  destruct (isalnum key_char); simpl; auto;
  try (split; [exact Heq | discriminate]);
  match goal with
  | |- context [negb (nonempty ?b) || ?f] =>
      destruct (negb (nonempty b) || f)
  end;
  cbn [barcode_buffer skus set_barcode_buffer set_barcode_input_time
         set_last_key_time set_scanned_item];
  repeat match goal with
  | |- context [if ?c then _ else _] => destruct c
  end; simpl; auto.
Qed.

End Disambiguator.

Section DisambiguatorExamples.
#[local] Existing Instance py_float.

(** The specification's scenario: "12345678" typed 10 ms apart is
    emitted after the 8th character. *)
Lemma burst_completes_witness :
  snd (feed (start_retail_mode demo_game) demo_scan)
  = replicate 7 None ++ [Some "12345678"]
  /\ barcode_buffer (fst (feed (start_retail_mode demo_game) demo_scan)) = "".
Proof.
  apply (burst_completes demo_scan (start_retail_mode demo_game) "12345678").
  - discriminate.
  - simpl. unfold scanner_speed_threshold. repeat split; auto; lia.
  - repeat constructor.
  - reflexivity.
  - reflexivity.
  - vm_compute. reflexivity.
Defined.

(** The raw buffer "1234567-" has 8 characters, its stripped form
    "1234567" has 7 and is a catalog key: the code returns it, although
    the stripped string is shorter than 8. *)
Lemma explicit_completion_short_code :
  snd (process_barcode_complete short_sku_game "1234567-") = Some "1234567"
  /\ ~ ((exists code,
           snd (process_barcode_complete short_sku_game "1234567-") = Some code)
        <-> (8 <= String.length (keep_alnum "1234567-"))%nat
            /\ has_key (skus short_sku_game) (keep_alnum "1234567-") = true).
Proof.
  split; [vm_compute; reflexivity|].
  intros [Hcode _].
  assert (H : (8 <= String.length (keep_alnum "1234567-"))%nat).
  { apply Hcode. exists "1234567". vm_compute. reflexivity. }
  vm_compute in H. lia.
Qed.

(** After [slow_burst] the buffer holds 11 characters and was started at
    1000 ms.  A 12th character at 2045 ms comes more than
    [barcode_timeout] after that start, yet the buffer is not cleared:
    the character is appended to the 11 old ones. *)
Lemma stale_since_start_not_cleared :
  let g := fst (feed (start_retail_mode demo_game) slow_burst) in
  let started := spec_buffer_start_time (start_retail_mode demo_game) 0 slow_burst in
  barcode_buffer g = "abcdefghijk"
  /\ started = 1000
  /\ 2045 - started > barcode_timeout
  /\ barcode_buffer (fst (process_barcode_input g "l" 2045)) = "abcdefghijkl"
  /\ process_barcode_input g "l" 2045
     <> process_barcode_input (set_barcode_buffer g "") "l" 2045.
Proof.
  cbv zeta. split; [vm_compute; reflexivity|].
  split; [vm_compute; reflexivity|].
  split; [vm_compute; reflexivity|].
  split; [vm_compute; reflexivity|].
  intros H.
  apply (f_equal (fun r => String.length (barcode_buffer (fst r)))) in H.
  vm_compute in H. discriminate.
Qed.

(** Two characters, then a third one two seconds later: the first two
    are discarded. *)
Lemma stale_buffer_cleared_witness :
  let g := fst (feed (start_retail_mode demo_game)
                  [("1"%char, 5000); ("2"%char, 5010)]) in
  let r := process_barcode_input g "3" 7000 in
  barcode_buffer g = "12"
  /\ r = process_barcode_input (set_barcode_buffer g "") "3" 7000
  /\ snd r = None
  /\ barcode_buffer (fst r) = "3".
Proof.
  cbv zeta. split; [vm_compute; reflexivity|].
  apply (stale_buffer_cleared
           (fst (feed (start_retail_mode demo_game)
                   [("1"%char, 5000); ("2"%char, 5010)])) "3" 7000).
  vm_compute. reflexivity.
Defined.

End DisambiguatorExamples.

(** ** Scan router *)

Section Router.
Context {NUM : Number}.

Lemma cart_get_alter (f : CartItem -> CartItem) (k : string)
    (c : list (string * CartItem)) (item : CartItem) :
  cart_get c k = Some item -> cart_get (cart_alter f k c) k = Some (f item).
Proof.
  induction c as [|[k' it] rest IH]; simpl; [discriminate|].
  destruct (String.eqb k' k) eqn:Hk; simpl; rewrite Hk; [congruence | exact IH].
Qed.

Lemma cart_get_append_new (k : string) (c : list (string * CartItem))
    (item : CartItem) :
  cart_get c k = None -> cart_get (c ++ [(k, item)]) k = Some item.
Proof.
  induction c as [|[k' it] rest IH]; simpl.
  - now rewrite String.eqb_refl.
  - destruct (String.eqb k' k); [discriminate | exact IH].
Qed.

(** What [add_to_cart] leaves alone. *)
Lemma add_to_cart_frame (g : Game) (product : Product) (sku : string)
    (wall : num) (stamp : string) :
  let g' := fst (add_to_cart g product sku wall stamp) in
  last_scan_time g' = last_scan_time g
  /\ skus g' = skus g
  /\ keyboard_shortcuts g' = keyboard_shortcuts g
  /\ total_price g' = nadd (total_price g) (price product)
  /\ receipt g'
     = receipt g ++ [{| entry_item := name product;
                        entry_price := price product;
                        entry_timestamp := stamp |}].
Proof. unfold add_to_cart. destruct (cart_has (cart g) sku); simpl; auto. Qed.

(** After [add_to_cart(product, sku)] the cart has a line under [sku]. *)
Lemma add_to_cart_has (g : Game) (product : Product) (sku : string)
    (wall : num) (stamp : string) :
  cart_has (cart (fst (add_to_cart g product sku wall stamp))) sku = true.
Proof.
  unfold add_to_cart, cart_has.
  destruct (cart_get (cart g) sku) as [item|] eqn:Hget; simpl.
  - now rewrite (cart_get_alter _ _ _ _ Hget).
  - now rewrite (cart_get_append_new _ _ _ Hget).
Qed.

Lemma generate_new_target_frame (g : Game) :
  last_scan_time (generate_new_target g) = last_scan_time g
  /\ skus (generate_new_target g) = skus g
  /\ learning_product_order (generate_new_target g) = learning_product_order g.
Proof. unfold generate_new_target. destruct (_ <? _)%nat; simpl; auto. Qed.

(** A call inside the cooldown is dropped: the state is returned as is. *)
Lemma submit_dropped (h : Handler) (g : Game) (code : string)
    (current_time : Z) (wall : num) (stamp : string) :
  current_time - last_scan_time g < scan_cooldown ->
  submit h g code current_time wall stamp = g.
Proof.
  intros Hcool. destruct h; simpl.
  - unfold scan_item.
    destruct (Z.ltb_spec (current_time - last_scan_time g) scan_cooldown);
      [reflexivity | lia].
  - unfold scan_timer_item. destruct (current_target g); [|reflexivity].
    destruct (Z.ltb_spec (current_time - last_scan_time g) scan_cooldown);
      [reflexivity | lia].
Qed.

(** An accepted call stamps the cooldown clock with its own time. *)
Lemma submit_accepted (h : Handler) (g : Game) (code : string)
    (current_time : Z) (wall : num) (stamp : string) :
  accepted h g current_time ->
  last_scan_time (submit h g code current_time wall stamp) = current_time.
Proof.
  intros [Hcool Htarget]. destruct h; simpl.
  - unfold scan_item.
    destruct (Z.ltb_spec (current_time - last_scan_time g) scan_cooldown);
      [lia|].
    destruct (lookup_product _ _) as [product|]; [|reflexivity].
    cbv zeta.
    match goal with
    | |- context [add_to_cart ?a ?b ?c ?d ?e] =>
        pose proof (add_to_cart_frame a b c d e) as Hf;
        destruct (add_to_cart a b c d e) as [g1 msg]
    end.
    simpl in *. tauto.
  - unfold scan_timer_item. destruct (current_target g) as [target|];
      [|congruence].
    destruct (Z.ltb_spec (current_time - last_scan_time g) scan_cooldown);
      [lia|].
    destruct (lookup_product _ _) as [product|];
      [destruct (String.eqb _ _)|];
      match goal with
      | |- last_scan_time (generate_new_target ?x) = _ =>
          destruct (generate_new_target_frame x) as [-> _]
      end; reflexivity.
Qed.

(** A call that is not accepted returns the state as is. *)
Lemma submit_cases (h : Handler) (g : Game) (code : string)
    (current_time : Z) (wall : num) (stamp : string) :
  submit h g code current_time wall stamp = g \/ accepted h g current_time.
Proof.
  destruct (Z.ltb_spec (current_time - last_scan_time g) scan_cooldown)
    as [Hcool | Hcool].
  - left. now apply submit_dropped.
  - destruct h.
    + right. split; [exact Hcool | exact I].
    + destruct (current_target g) as [target|] eqn:Ht.
      * right. split; [exact Hcool | rewrite Ht; discriminate].
      * left. simpl. unfold scan_timer_item. now rewrite Ht.
Qed.

(** C2, as the code has it: of two consecutive calls less than
    [scan_cooldown] apart, whichever handlers they go to, the second
    changes nothing when the first was accepted; and in every case at
    most one of the two changes the state. *)
Theorem cooldown_gate (g : Game) (h1 h2 : Handler) (code1 code2 : string)
    (t1 t2 : Z) (wall1 wall2 : num) (stamp1 stamp2 : string) :
  t2 - t1 < scan_cooldown ->
  let g1 := submit h1 g code1 t1 wall1 stamp1 in
  let g2 := submit h2 g1 code2 t2 wall2 stamp2 in
  (accepted h1 g t1 -> g2 = g1) /\ (g1 = g \/ g2 = g1).
Proof.
  intros Hgap g1 g2. subst g1 g2.
  assert (Hsecond : accepted h1 g t1 ->
                    submit h2 (submit h1 g code1 t1 wall1 stamp1)
                      code2 t2 wall2 stamp2
                    = submit h1 g code1 t1 wall1 stamp1).
  { intros Hacc. apply submit_dropped.
    rewrite (submit_accepted h1 g code1 t1 wall1 stamp1 Hacc). exact Hgap. }
  split; [exact Hsecond|].
  destruct (submit_cases h1 g code1 t1 wall1 stamp1) as [Hsame | Hacc];
    [left; exact Hsame | right; exact (Hsecond Hacc)].
Qed.

(** A code that is neither a shortcut key nor a SKU does not resolve. *)
Lemma unknown_code_unresolved (g : Game) (code : string) :
  has_key (keyboard_shortcuts g) code = false ->
  has_key (skus g) code = false ->
  lookup_product g code = None.
Proof.
  unfold has_key, lookup_product.
  destruct (keyboard_shortcuts g !! code); [discriminate|].
  destruct (skus g !! code); [discriminate | reflexivity].
Qed.

(** An accepted retail scan whose lookup fails only stamps the cooldown
    clock and sets the status line. *)
Lemma failed_lookup_state (g : Game) (code : string) (current_time : Z)
    (wall : num) (stamp : string) :
  scan_cooldown <= current_time - last_scan_time g ->
  lookup_product g code = None ->
  scan_item g code current_time wall stamp
  = set_scanned_item (set_last_scan_time g current_time) MsgProductNotFound.
Proof.
  intros Hcool Hlookup. unfold scan_item.
  destruct (Z.ltb_spec (current_time - last_scan_time g) scan_cooldown); [lia|].
  change (lookup_product (set_last_scan_time g current_time) code)
    with (lookup_product g code).
  now rewrite Hlookup.
Qed.

(** C8: a retail scan that passes the cooldown gate with a code that is
    neither a shortcut key nor a SKU sets the status line to "Product not
    found!" and leaves the cart, the running total and the receipt log as
    they were. *)
Theorem product_not_found (g : Game) (code : string) (current_time : Z)
    (wall : num) (stamp : string) :
  scan_cooldown <= current_time - last_scan_time g ->
  has_key (keyboard_shortcuts g) code = false ->
  has_key (skus g) code = false ->
  let g' := scan_item g code current_time wall stamp in
  scanned_item g' = MsgProductNotFound
  /\ cart g' = cart g
  /\ total_price g' = total_price g
  /\ receipt g' = receipt g.
Proof.
  intros Hcool Hshortcut Hsku g'. subst g'.
  rewrite (failed_lookup_state g code current_time wall stamp Hcool
             (unknown_code_unresolved g code Hshortcut Hsku)).
  repeat split.
Qed.

(** C10: a code that is a shortcut key resolves to the product stored
    under the shortcut's target, whatever is stored under the code
    itself; an accepted retail scan of it adds that product under the
    target SKU, and the cart then has a line keyed by the target. *)
Theorem shortcut_takes_precedence (g : Game) (code target : string) :
  keyboard_shortcuts g !! code = Some target ->
  has_key (skus g) code = true ->
  lookup_product g code = skus g !! target
  /\ forall (product : Product) (current_time : Z) (wall : num)
       (stamp : string),
       skus g !! target = Some product ->
       scan_cooldown <= current_time - last_scan_time g ->
       let g' := scan_item g code current_time wall stamp in
       let added :=
         add_to_cart (set_last_scan_time g current_time) product target
           wall stamp in
       g' = set_scanned_item (fst added) (snd added)
       /\ cart_has (cart g') target = true.
Proof.
  intros Hshortcut _.
  assert (Hlookup : lookup_product g code = skus g !! target)
    by (unfold lookup_product; now rewrite Hshortcut).
  split; [exact Hlookup|].
  intros product current_time wall stamp Htarget Hcool g' added.
  assert (Hg' : g' = set_scanned_item (fst added) (snd added)).
  { subst g' added. unfold scan_item.
    destruct (Z.ltb_spec (current_time - last_scan_time g) scan_cooldown);
      [lia|].
    change (lookup_product (set_last_scan_time g current_time) code)
      with (lookup_product g code).
    rewrite Hlookup, Htarget.
    change (keyboard_shortcuts (set_last_scan_time g current_time))
      with (keyboard_shortcuts g).
    rewrite Hshortcut. cbv zeta.
    destruct (add_to_cart _ _ _ _ _); reflexivity. }
  split; [exact Hg'|].
  rewrite Hg'. subst added.
  change (cart (set_scanned_item ?x ?m)) with (cart x).
  apply add_to_cart_has.
Qed.

End Router.

Section RouterExamples.
#[local] Existing Instance py_float.

(** A scan at 1000 ms is accepted and one at 1500 ms is dropped. *)
Lemma cooldown_gate_witness :
  let g := start_retail_mode demo_game in
  let g1 := submit Retail g "12345678" 1000 1700000000.0%float "12:00:00" in
  let g2 := submit Learning g1 "12345678" 1500 1700000000.5%float "12:00:00" in
  accepted Retail g 1000 /\ g2 = g1 /\ (g1 = g \/ g2 = g1).
Proof.
  assert (Hacc : accepted Retail (start_retail_mode demo_game) 1000)
    by (split; [vm_compute; discriminate | exact I]).
  split; [exact Hacc|].
  assert (Hgap : 1500 - 1000 < scan_cooldown) by (unfold scan_cooldown; lia).
  destruct (cooldown_gate (start_retail_mode demo_game) Retail Learning
              "12345678" "12345678" 1000 1500
              1700000000.0%float 1700000000.5%float "12:00:00" "12:00:00"
              Hgap) as [Hsecond Hone].
  split; [exact (Hsecond Hacc) | exact Hone].
Defined.

(** Scans at 1000, 1900 and 2000 ms: the one at 1900 ms is dropped (the
    clock stands at 1000), so the one at 2000 ms, only 100 ms after it, is
    accepted and changes the cart. *)
Lemma second_call_within_cooldown_accepted :
  let g := submit Retail (start_retail_mode demo_game) "12345678" 1000
             1700000000.0%float "12:00:00" in
  let g1 := submit Retail g "12345678" 1900 1700000000.9%float "12:00:00" in
  let g2 := submit Retail g1 "12345678" 2000 1700000001.0%float "12:00:01" in
  2000 - 1900 < scan_cooldown
  /\ g1 = g
  /\ option_map quantity (cart_get (cart g1) "12345678") = Some 1
  /\ option_map quantity (cart_get (cart g2) "12345678") = Some 2
  /\ g2 <> g1.
Proof.
  cbv zeta. split; [unfold scan_cooldown; lia|].
  split; [apply submit_dropped; vm_compute; reflexivity|].
  split; [vm_compute; reflexivity|].
  split; [vm_compute; reflexivity|].
  intros H.
  apply (f_equal (fun g => option_map quantity (cart_get (cart g) "12345678")))
    in H.
  vm_compute in H. discriminate.
Qed.

Lemma product_not_found_witness :
  let g' := scan_item (start_retail_mode demo_game) "99999999" 1000
              1700000000.0%float "12:00:00" in
  scanned_item g' = MsgProductNotFound
  /\ cart g' = cart (start_retail_mode demo_game)
  /\ total_price g' = total_price (start_retail_mode demo_game)
  /\ receipt g' = receipt (start_retail_mode demo_game).
Proof.
  apply (product_not_found (start_retail_mode demo_game) "99999999" 1000).
  - vm_compute. discriminate.
  - reflexivity.
  - vm_compute. reflexivity.
Defined.

(** In [overlap_game] the code "1" is a SKU (the sticker) and a shortcut
    for the bread: it resolves to the bread. *)
Lemma shortcut_takes_precedence_witness :
  lookup_product overlap_game "1" = skus overlap_game !! "7501234567890"
  /\ forall (product : Product) (current_time : Z) (wall : num)
       (stamp : string),
       skus overlap_game !! "7501234567890" = Some product ->
       scan_cooldown <= current_time - last_scan_time overlap_game ->
       let g' := scan_item overlap_game "1" current_time wall stamp in
       let added :=
         add_to_cart (set_last_scan_time overlap_game current_time) product
           "7501234567890" wall stamp in
       g' = set_scanned_item (fst added) (snd added)
       /\ cart_has (cart g') "7501234567890" = true.
Proof.
  apply (shortcut_takes_precedence overlap_game "1" "7501234567890").
  - vm_compute. reflexivity.
  - vm_compute. reflexivity.
Defined.

Example shortcut_resolves_to_bread :
  lookup_product overlap_game "1" = Some bread
  /\ skus overlap_game !! "1" = Some sticker
  /\ map fst (cart (scan_item (start_retail_mode overlap_game) "1" 1000
                      1700000000.0%float "12:00:00"))
     = ["7501234567890"].
Proof. vm_compute. auto. Qed.

(** The cooldown clock starts at 0: scans in the first second of the
    session are dropped, also the first one. *)
Example early_scans_dropped :
  let g := start_retail_mode demo_game in
  submit Retail g "12345678" 0 1700000000.0%float "12:00:00" = g
  /\ submit Retail g "12345678" 500 1700000000.5%float "12:00:00" = g.
Proof. split; apply submit_dropped; vm_compute; reflexivity. Qed.

End RouterExamples.

(** ** Cart ledger *)

Section Ledger.
Context {NUM : Number}.

Lemma cart_get_alter_other (f : CartItem -> CartItem) (k k2 : string)
    (c : list (string * CartItem)) :
  k <> k2 -> cart_get (cart_alter f k c) k2 = cart_get c k2.
Proof.
  intros Hne. induction c as [|[k' it] rest IH]; simpl; [reflexivity|].
  destruct (String.eqb_spec k' k) as [-> | Hk]; simpl.
  - destruct (String.eqb_spec k k2); [contradiction | reflexivity].
  - now rewrite IH.
Qed.

Lemma cart_get_app (c l : list (string * CartItem)) (k : string)
    (item : CartItem) :
  cart_get c k = Some item -> cart_get (c ++ l) k = Some item.
Proof.
  induction c as [|[k' it] rest IH]; simpl; [discriminate|].
  destruct (String.eqb k' k); auto.
Qed.

Lemma cart_get_del_other (k k2 : string) (c : list (string * CartItem)) :
  k <> k2 -> cart_get (cart_del k c) k2 = cart_get c k2.
Proof.
  intros Hne. induction c as [|[k' it] rest IH]; simpl; [reflexivity|].
  destruct (String.eqb_spec k' k) as [-> | Hk]; simpl.
  - destruct (String.eqb_spec k k2); [contradiction | reflexivity].
  - now rewrite IH.
Qed.

Lemma cart_get_None (c : list (string * CartItem)) (k : string) :
  cart_get c k = None <-> ~ In k (map fst c).
Proof.
  induction c as [|[k' it] rest IH]; simpl; [tauto|].
  destruct (String.eqb_spec k' k) as [-> | Hk].
  - split; [discriminate | tauto].
  - rewrite IH. tauto.
Qed.

Lemma cart_get_del_same (k : string) (c : list (string * CartItem)) :
  List.NoDup (map fst c) -> cart_get (cart_del k c) k = None.
Proof.
  induction c as [|[k' it] rest IH]; simpl; [reflexivity|].
  intros Hnd. inversion Hnd as [|? ? Hnotin Hrest]; subst.
  destruct (String.eqb_spec k' k) as [-> | Hk]; simpl.
  - now apply cart_get_None.
  - destruct (String.eqb_spec k' k); [contradiction | auto].
Qed.

Lemma cart_alter_keys (f : CartItem -> CartItem) (k : string)
    (c : list (string * CartItem)) :
  map fst (cart_alter f k c) = map fst c.
Proof.
  induction c as [|[k' it] rest IH]; simpl; [reflexivity|].
  destruct (String.eqb k' k); simpl; [reflexivity | now rewrite IH].
Qed.

Lemma cart_del_keys_incl (k k2 : string) (c : list (string * CartItem)) :
  In k2 (map fst (cart_del k c)) -> In k2 (map fst c).
Proof.
  induction c as [|[k' it] rest IH]; simpl; [tauto|].
  destruct (String.eqb k' k); simpl; tauto.
Qed.

Lemma cart_del_NoDup (k : string) (c : list (string * CartItem)) :
  List.NoDup (map fst c) -> List.NoDup (map fst (cart_del k c)).
Proof.
  induction c as [|[k' it] rest IH]; simpl; [auto|].
  intros Hnd. inversion Hnd as [|? ? Hnotin Hrest]; subst.
  destruct (String.eqb k' k); simpl; [assumption|].
  constructor; [|auto]. intros Hin. apply Hnotin.
  now apply cart_del_keys_incl in Hin.
Qed.

(** The cart after [add_to_cart]. *)
Lemma add_to_cart_cart (g : Game) (product : Product) (sku : string)
    (wall : num) (stamp : string) :
  cart (fst (add_to_cart g product sku wall stamp))
  = if cart_has (cart g) sku
    then cart_alter (line_added product) sku (cart g)
    else cart g ++ [(sku, new_line product sku wall)].
Proof. unfold add_to_cart. destruct (cart_has (cart g) sku); reflexivity. Qed.

(** The cart and the total after [remove_last_item]: nothing changes, or
    the line selected by the loop loses one unit. *)
Lemma remove_last_item_effect (g : Game) :
  let g' := remove_last_item g in
  (cart g' = cart g /\ total_price g' = total_price g)
  \/ exists (k : string) (item : CartItem),
       fst (most_recent (cart g)) = Some k
       /\ nonempty k = true
       /\ cart_get (cart g) k = Some item
       /\ total_price g' = nsub (total_price g) (item_price item)
       /\ cart g' = if quantity item >? 1
                    then cart_alter line_removed k (cart g)
                    else cart_del k (cart g).
Proof.
  unfold remove_last_item.
  destruct (cart g) as [|entry rest] eqn:Hcart; [left; simpl; auto|].
  destruct (fst (most_recent (entry :: rest))) as [k|] eqn:Hlast;
    [|left; auto].
  destruct (nonempty k) eqn:Hk; [|left; auto].
  destruct (cart_get (entry :: rest) k) as [item|] eqn:Hget; [|left; auto].
  right. exists k, item. repeat (split; [reflexivity || assumption|]).
  destruct (quantity item >? 1).
  - simpl. try rewrite Hcart. auto.
  - cbv zeta.
    match goal with
    | |- context [if ?c then set_cart_scroll_offset ?x 0 else ?y] =>
        destruct c
    end; simpl; try rewrite Hcart; auto.
Qed.

(** [remove_last_item] when the loop selects the line [item] under the
    non-empty key [k]. *)
Lemma remove_last_item_selected (g : Game) (k : string) (item : CartItem) :
  fst (most_recent (cart g)) = Some k ->
  nonempty k = true ->
  cart_get (cart g) k = Some item ->
  total_price (remove_last_item g) = nsub (total_price g) (item_price item)
  /\ cart (remove_last_item g)
     = if quantity item >? 1
       then cart_alter line_removed k (cart g)
       else cart_del k (cart g).
Proof.
  intros Hlast Hk Hget. unfold remove_last_item.
  destruct (cart g) as [|entry rest] eqn:Hcart; [discriminate|].
  rewrite Hlast, Hk, Hget.
  destruct (quantity item >? 1).
  - simpl. try rewrite Hcart. auto.
  - cbv zeta.
    match goal with
    | |- context [if ?c then set_cart_scroll_offset ?x 0 else ?y] =>
        destruct c
    end; simpl; try rewrite Hcart; auto.
Qed.

(** The cart keys stay distinct, as in a dict. *)
Lemma cart_step_NoDup (g : Game) (op : CartOp) :
  List.NoDup (map fst (cart g)) ->
  List.NoDup (map fst (cart (cart_step g op))).
Proof.
  intros Hnd. destruct op as [product sku wall stamp| |]; unfold cart_step.
  - rewrite add_to_cart_cart. unfold cart_has.
    destruct (cart_get (cart g) sku) eqn:Hget.
    + now rewrite cart_alter_keys.
    + rewrite map_app. simpl. apply NoDup_ListNoDup.
      apply NoDup_app. split; [now apply NoDup_ListNoDup|].
      split; [|apply NoDup_singleton].
      intros x Hx Hx'. apply list_elem_of_In in Hx.
      apply list_elem_of_singleton in Hx'. subst x.
      now apply cart_get_None in Hget.
  - destruct (remove_last_item_effect g) as [[-> _] | (k & item & _ & _ & _ & _ & ->)];
      [assumption|].
    destruct (quantity item >? 1);
      [now rewrite cart_alter_keys | now apply cart_del_NoDup].
  - constructor.
Qed.

Lemma same_line_refl (it : CartItem) : same_line it it.
Proof. repeat split. Qed.

(** As long as a line stays in the cart, no cart operation changes its
    [first_added], SKU, name or unit price. *)
Lemma cart_step_same_line (g : Game) (op : CartOp) (sku : string)
    (item item' : CartItem) :
  List.NoDup (map fst (cart g)) ->
  cart_get (cart g) sku = Some item ->
  cart_get (cart (cart_step g op)) sku = Some item' ->
  same_line item item'.
Proof.
  intros Hnd Hget Hget'.
  destruct op as [product k wall stamp| |]; unfold cart_step in Hget'.
  - rewrite add_to_cart_cart in Hget'. unfold cart_has in Hget'.
    destruct (String.eqb_spec k sku) as [-> | Hk].
    + rewrite Hget, (cart_get_alter _ _ _ _ Hget) in Hget'.
      injection Hget' as <-. repeat split.
    + destruct (cart_get (cart g) k).
      * rewrite cart_get_alter_other, Hget in Hget' by assumption.
        injection Hget' as <-. apply same_line_refl.
      * rewrite (cart_get_app _ _ _ _ Hget) in Hget'.
        injection Hget' as <-. apply same_line_refl.
  - destruct (remove_last_item_effect g)
      as [[Hc _] | (k & it & _ & _ & Hk & _ & Hc)]; rewrite Hc in Hget'.
    + rewrite Hget in Hget'. injection Hget' as <-. apply same_line_refl.
    + destruct (String.eqb_spec k sku) as [-> | Hne].
      * destruct (quantity it >? 1).
        -- rewrite (cart_get_alter _ _ _ _ Hget) in Hget'.
           injection Hget' as <-. repeat split.
        -- rewrite cart_get_del_same in Hget' by assumption. discriminate.
      * destruct (quantity it >? 1).
        -- rewrite cart_get_alter_other, Hget in Hget' by assumption.
           injection Hget' as <-. apply same_line_refl.
        -- rewrite cart_get_del_other, Hget in Hget' by assumption.
           injection Hget' as <-. apply same_line_refl.
  - discriminate.
Qed.

(** C9: [first_added] is written by the [add_to_cart] call that inserts
    the line, with the clock of that call.  A later [add_to_cart] of the
    same SKU and a [remove_last_item] that decrements the line change its
    quantity by one, its line total and the running total by the price,
    and leave [first_added], SKU, name and unit price as they were; and
    as long as the line stays in the cart no cart operation changes
    these four. *)
Theorem first_added_written_once (g : Game) (sku : string) :
  (forall (product : Product) (wall : num) (stamp : string),
     cart_get (cart g) sku = None ->
     cart_get (cart (fst (add_to_cart g product sku wall stamp))) sku
     = Some (new_line product sku wall))
  /\ (forall (item : CartItem) (product : Product) (wall : num)
        (stamp : string),
        cart_get (cart g) sku = Some item ->
        let g' := fst (add_to_cart g product sku wall stamp) in
        let item' := line_added product item in
        cart_get (cart g') sku = Some item'
        /\ same_line item item'
        /\ quantity item' = quantity item + 1
        /\ item_total_price item' = nadd (item_total_price item) (price product)
        /\ total_price g' = nadd (total_price g) (price product))
  /\ (forall (item : CartItem),
        cart_get (cart g) sku = Some item ->
        fst (most_recent (cart g)) = Some sku ->
        nonempty sku = true ->
        quantity item > 1 ->
        let g' := remove_last_item g in
        let item' := line_removed item in
        cart_get (cart g') sku = Some item'
        /\ same_line item item'
        /\ quantity item' = quantity item - 1
        /\ item_total_price item' = nsub (item_total_price item) (item_price item)
        /\ total_price g' = nsub (total_price g) (item_price item))
  /\ (forall (op : CartOp) (item item' : CartItem),
        List.NoDup (map fst (cart g)) ->
        cart_get (cart g) sku = Some item ->
        cart_get (cart (cart_step g op)) sku = Some item' ->
        same_line item item').
Proof.
  split; [|split; [|split]].
  - intros product wall stamp Hget. rewrite add_to_cart_cart.
    unfold cart_has. rewrite Hget. now apply cart_get_append_new.
  - intros item product wall stamp Hget g' item'. subst g' item'.
    rewrite add_to_cart_cart. unfold cart_has. rewrite Hget.
    rewrite (cart_get_alter _ _ _ _ Hget).
    destruct (add_to_cart_frame g product sku wall stamp)
      as (_ & _ & _ & Htotal & _).
    repeat split. exact Htotal.
  - intros item Hget Hlast Hsku Hqty g' item'. subst g' item'.
    destruct (remove_last_item_selected g sku item Hlast Hsku Hget)
      as [Ht Hc].
    destruct (Z.gtb_spec (quantity item) 1); [|lia].
    rewrite Hc, (cart_get_alter _ _ _ _ Hget).
    repeat split. exact Ht.
  - intros op item item'. apply cart_step_same_line.
Qed.

(** The ledger on a cart with at most one line. *)
Lemma add_to_empty_cart (g : Game) (product : Product) (sku : string)
    (wall : num) (stamp : string) :
  cart g = [] ->
  let g' := fst (add_to_cart g product sku wall stamp) in
  cart g' = [(sku, new_line product sku wall)]
  /\ total_price g' = nadd (total_price g) (price product).
Proof.
  intros Hcart g'. subst g'. rewrite add_to_cart_cart, Hcart.
  destruct (add_to_cart_frame g product sku wall stamp)
    as (_ & _ & _ & Htotal & _).
  split; [reflexivity | exact Htotal].
Qed.

Lemma add_to_single_line (g : Game) (product : Product) (sku : string)
    (item : CartItem) (wall : num) (stamp : string) :
  cart g = [(sku, item)] ->
  let g' := fst (add_to_cart g product sku wall stamp) in
  cart g' = [(sku, line_added product item)]
  /\ total_price g' = nadd (total_price g) (price product).
Proof.
  intros Hcart g'. subst g'. rewrite add_to_cart_cart, Hcart.
  destruct (add_to_cart_frame g product sku wall stamp)
    as (_ & _ & _ & Htotal & _).
  unfold cart_has. simpl. rewrite String.eqb_refl.
  split; [reflexivity | exact Htotal].
Qed.

Lemma remove_from_single_line (g : Game) (sku : string) (item : CartItem) :
  cart g = [(sku, item)] ->
  nonempty sku = true ->
  ngt (first_added item) nzero = true ->
  cart (remove_last_item g)
  = (if quantity item >? 1 then [(sku, line_removed item)] else [])
  /\ total_price (remove_last_item g)
     = nsub (total_price g) (item_price item).
Proof.
  intros Hcart Hsku Hpos.
  destruct (remove_last_item_selected g sku item) as [Ht Hc].
  - rewrite Hcart. unfold most_recent. simpl. now rewrite Hpos.
  - exact Hsku.
  - rewrite Hcart. simpl. now rewrite String.eqb_refl.
  - rewrite Hc, Ht, Hcart. simpl. rewrite String.eqb_refl.
    split; reflexivity.
Qed.

(** Three adds and three removals of one product under one SKU: the
    cart and the running total at the end. *)
Lemma round_trip_state (g : Game) (product : Product) (sku : string)
    (w1 w2 w3 : num) (s1 s2 s3 : string) :
  cart g = [] ->
  total_price g = nzero ->
  nonempty sku = true ->
  ngt w1 nzero = true ->
  let g' :=
    run_cart g
      [OpAdd product sku w1 s1; OpAdd product sku w2 s2;
       OpAdd product sku w3 s3; OpRemoveLast; OpRemoveLast; OpRemoveLast] in
  let p := price product in
  cart g' = []
  /\ total_price g'
     = nsub (nsub (nsub (nadd (nadd (nadd nzero p) p) p) p) p) p.
Proof.
  intros Hcart Htotal Hsku Hpos. cbv zeta.
  unfold run_cart. cbn [fold_left cart_step].
  set (g1 := fst (add_to_cart g product sku w1 s1)).
  set (g2 := fst (add_to_cart g1 product sku w2 s2)).
  set (g3 := fst (add_to_cart g2 product sku w3 s3)).
  set (g4 := remove_last_item g3).
  set (g5 := remove_last_item g4).
  destruct (add_to_empty_cart g product sku w1 s1 Hcart) as [Hc1 Ht1].
  fold g1 in Hc1, Ht1.
  destruct (add_to_single_line g1 product sku _ w2 s2 Hc1) as [Hc2 Ht2].
  fold g2 in Hc2, Ht2.
  destruct (add_to_single_line g2 product sku _ w3 s3 Hc2) as [Hc3 Ht3].
  fold g3 in Hc3, Ht3.
  destruct (remove_from_single_line g3 sku _ Hc3 Hsku Hpos) as [Hc4 Ht4].
  fold g4 in Hc4, Ht4.
  change (quantity _ >? 1) with true in Hc4. cbv iota in Hc4.
  destruct (remove_from_single_line g4 sku _ Hc4 Hsku Hpos) as [Hc5 Ht5].
  fold g5 in Hc5, Ht5.
  change (quantity _ >? 1) with true in Hc5. cbv iota in Hc5.
  destruct (remove_from_single_line g5 sku _ Hc5 Hsku Hpos) as [Hc6 Ht6].
  change (quantity _ >? 1) with false in Hc6. cbv iota in Hc6.
  split; [exact Hc6|].
  rewrite Ht6, Ht5, Ht4, Ht3, Ht2, Ht1, Htotal. reflexivity.
Qed.

(** C7, as the code has it: three [add_to_cart] of one product under one
    SKU followed by three [remove_last_item] (which succeed: the SKU is a
    non-empty string and the clock of the first add is positive) leave
    the cart empty; the running total is the price added three times to
    zero and subtracted three times in the arithmetic of the interpreter,
    and it is zero whenever each of the three subtractions undoes the
    matching addition. *)
Theorem add3_remove3 (g : Game) (product : Product) (sku : string)
    (w1 w2 w3 : num) (s1 s2 s3 : string) :
  cart g = [] ->
  total_price g = nzero ->
  nonempty sku = true ->
  ngt w1 nzero = true ->
  let g' :=
    run_cart g
      [OpAdd product sku w1 s1; OpAdd product sku w2 s2;
       OpAdd product sku w3 s3; OpRemoveLast; OpRemoveLast; OpRemoveLast] in
  let p := price product in
  let t1 := nadd nzero p in
  let t2 := nadd t1 p in
  let t3 := nadd t2 p in
  cart g' = []
  /\ total_price g' = nsub (nsub (nsub t3 p) p) p
  /\ (nsub t3 p = t2 -> nsub t2 p = t1 -> nsub t1 p = nzero ->
      total_price g' = nzero).
Proof.
  intros Hcart Htotal Hsku Hpos.
  destruct (round_trip_state g product sku w1 w2 w3 s1 s2 s3
              Hcart Htotal Hsku Hpos) as [Hc Ht].
  cbv zeta in *. split; [exact Hc|]. split; [exact Ht|].
  intros H3 H2 H1. rewrite Ht, H3, H2, H1. reflexivity.
Qed.

End Ledger.

Section ExactLedger.
#[local] Existing Instance exact_Z.











(** In exact arithmetic the round trip of C7 ends with a total of zero. *)
Lemma add3_remove3_exact (g : Game) (product : Product) (sku : string)
    (w1 w2 w3 : Z) (s1 s2 s3 : string) :
  cart g = [] ->
  total_price g = 0 ->
  nonempty sku = true ->
  0 < w1 ->
  let g' :=
    run_cart g
      [OpAdd product sku w1 s1; OpAdd product sku w2 s2;
       OpAdd product sku w3 s3; OpRemoveLast; OpRemoveLast; OpRemoveLast] in
  cart g' = [] /\ total_price g' = 0.
Proof.
  intros Hcart Htotal Hsku Hpos.
  assert (Hgt : ngt w1 nzero = true) by (simpl; lia).
  destruct (round_trip_state g product sku w1 w2 w3 s1 s2 s3
              Hcart Htotal Hsku Hgt) as [Hc Ht].
  cbv zeta. split; [exact Hc|]. rewrite Ht. simpl. lia.
Qed.


Example cents_ops_result :
  let g := run_cart (start_retail_mode cents_game) cents_ops in
  map (fun e => (fst e, quantity (snd e), item_total_price (snd e))) (cart g)
  = [("12345678", 1, 150)]
  /\ total_price g = 150.
Proof. vm_compute. auto. Qed.

End ExactLedger.

Section LedgerExamples.
#[local] Existing Instance py_float.

(** The specification's scenario: two adds of the apple give one line
    with quantity 2, line total 3.00 and running total 3.00. *)
Example add_twice :
  let g := run_cart (start_retail_mode demo_game)
             [OpAdd apple "12345678" 1700000000.0%float "12:00:00";
              OpAdd apple "12345678" 1700000001.0%float "12:00:01"] in
  map (fun e => (fst e, quantity (snd e), item_total_price (snd e))) (cart g)
  = [("12345678", 2, 3.0%float)]
  /\ total_price g = 3.0%float
  /\ length (receipt g) = 2%nat.
Proof. vm_compute. auto. Qed.

(** With the apple at 1.50 every step of the round trip is exact. *)
Lemma add3_remove3_witness :
  let g' := run_cart (start_retail_mode demo_game)
              (add3_remove3_ops apple "12345678") in
  cart g' = [] /\ total_price g' = 0%float.
Proof.
  destruct (add3_remove3 (start_retail_mode demo_game) apple "12345678"
              1700000000.0%float 1700000001.0%float 1700000002.0%float
              "12:00:00" "12:00:01" "12:00:02"
              eq_refl eq_refl eq_refl eq_refl) as (Hcart & _ & Hexact).
  split; [exact Hcart|].
  apply Hexact; vm_compute; reflexivity.
Defined.

(** With the Whole Milk of the default catalog (2.80) the round trip
    empties the cart but leaves a running total of -2^-50, which is not
    equal to zero. *)
Lemma add3_remove3_residue :
  let g' := run_cart (start_retail_mode default_game)
              (add3_remove3_ops whole_milk "7501234567891") in
  skus default_game !! "7501234567891" = Some whole_milk
  /\ cart g' = []
  /\ total_price g' = (-0x1p-50)%float
  /\ PrimFloat.eqb (total_price g') 0%float = false
  /\ ~ (cart g' = [] /\ total_price g' = 0%float).
Proof.
  cbv zeta.
  split; [vm_compute; reflexivity|].
  split; [vm_compute; reflexivity|].
  split; [vm_compute; reflexivity|].
  split; [vm_compute; reflexivity|].
  intros [_ H].
  apply (f_equal (fun x => PrimFloat.eqb x 0%float)) in H.
  vm_compute in H. discriminate.
Qed.


(** One amount of 1e16 and two of 1.0, each SKU with one price: the
    running total is 1e16, the line totals add up to 1e16 + 2. *)
Lemma ledger_total_rounding :
  let g := run_cart (start_retail_mode demo_game) large_amount_ops in
  total_price g = 1e16%float
  /\ lines_total (cart g) = 10000000000000002.0%float
  /\ PrimFloat.ltb 1e-6
       (PrimFloat.abs (PrimFloat.sub (total_price g) (lines_total (cart g))))
     = true.
Proof. vm_compute. auto. Qed.

(** The apple line keeps the clock of its first add through a second
    add and a removal. *)
Lemma first_added_written_once_witness :
  let g0 := start_retail_mode demo_game in
  let g1 := fst (add_to_cart g0 apple "12345678" 1700000000.0%float "12:00:00") in
  let g2 := fst (add_to_cart g1 apple "12345678" 1700000005.0%float "12:00:05") in
  let g3 := remove_last_item g2 in
  option_map first_added (cart_get (cart g1) "12345678")
  = Some 1700000000.0%float
  /\ option_map (fun it => (first_added it, quantity it))
       (cart_get (cart g2) "12345678")
     = Some (1700000000.0%float, 2)
  /\ option_map (fun it => (first_added it, quantity it))
       (cart_get (cart g3) "12345678")
     = Some (1700000000.0%float, 1).
Proof.
  cbv zeta.
  set (g0 := start_retail_mode demo_game).
  set (line1 := new_line apple "12345678" 1700000000.0%float).
  destruct (first_added_written_once g0 "12345678") as (Hnew & _ & _ & _).
  pose proof (Hnew apple 1700000000.0%float "12:00:00" eq_refl) as H1.
  set (g1 := fst (add_to_cart g0 apple "12345678" 1700000000.0%float "12:00:00"))
    in *.
  destruct (first_added_written_once g1 "12345678") as (_ & Hagain & _ & _).
  destruct (Hagain line1 apple 1700000005.0%float "12:00:05" H1)
    as (H2 & _).
  set (g2 := fst (add_to_cart g1 apple "12345678" 1700000005.0%float "12:00:05"))
    in *.
  destruct (first_added_written_once g2 "12345678") as (_ & _ & Hdec & _).
  assert (Hq : quantity (line_added apple line1) > 1) by (vm_compute; reflexivity).
  destruct (Hdec (line_added apple line1) H2 eq_refl eq_refl Hq) as (H3 & _).
  rewrite H1, H2, H3. repeat split.
Defined.

End LedgerExamples.

(** ** Learning session *)

Section Learning.
Context {NUM : Number}.

Lemma generate_new_target_on_target (order : list Product) (k : nat)
    (g : Game) :
  learning_product_order g = order ->
  learning_current_index g = S k ->
  (S k <= length order)%nat ->
  on_target order (S k) (generate_new_target g).
Proof.
  intros Horder Hindex Hle. unfold generate_new_target, on_target.
  rewrite Hindex, Horder.
  destruct (Nat.ltb_spec (S k) (length order));
    cbn [learning_product_order current_target learning_current_index
           set_current_target set_learning_current_index];
    rewrite ?Horder, ?Hindex.
  - repeat split. lia.
  - repeat split; [|lia].
    symmetry. apply lookup_ge_None. lia.
Qed.

(** [start_timer_mode] puts the session on the first product of the
    shuffled order and leaves the cooldown clock alone. *)
Lemma start_timer_mode_on_target (g : Game) (current_time : Z)
    (shuffle : list Product -> list Product) :
  let order := shuffle (map_to_list (skus g)).*2 in
  on_target order 0 (start_timer_mode g current_time shuffle)
  /\ last_scan_time (start_timer_mode g current_time shuffle)
     = last_scan_time g.
Proof.
  cbv zeta. unfold start_timer_mode, generate_new_target, on_target.
  set (order := shuffle (map_to_list (skus g)).*2).
  set (m := Nat.min 1 (length order)).
  assert (Hm : m = Nat.min 1 (length order)) by reflexivity.
  clearbody m. simpl. fold order.
  destruct (Nat.ltb_spec 0 (length order)); simpl; fold order;
    repeat split; try lia.
  symmetry. apply lookup_ge_None. lia.
Qed.

(** An evaluated scan that passes the gate moves the session one
    position further, whatever the code resolves to. *)
Lemma scan_timer_item_advances (order : list Product) (k : nat) (g : Game)
    (code : string) (current_time : Z) :
  on_target order k g ->
  (k < length order)%nat ->
  scan_cooldown <= current_time - last_scan_time g ->
  on_target order (S k) (scan_timer_item g code current_time)
  /\ last_scan_time (scan_timer_item g code current_time) = current_time.
Proof.
  intros (Horder & Htarget & Hindex) Hlt Hcool.
  destruct (lookup_lt_is_Some_2 order k Hlt) as [target Hk].
  rewrite Hk in Htarget. rewrite Nat.min_l in Hindex by lia.
  unfold scan_timer_item. rewrite Htarget.
  destruct (Z.ltb_spec (current_time - last_scan_time g) scan_cooldown);
    [lia|].
  destruct (lookup_product _ _) as [product|];
    [destruct (String.eqb _ _)|];
    (split;
     [apply generate_new_target_on_target; simpl; auto
     |match goal with
      | |- last_scan_time (generate_new_target ?x) = _ =>
          destruct (generate_new_target_frame x) as [-> _]
      end; reflexivity]).
Qed.

Lemma evaluate_all_on_target (order : list Product)
    (scans : list (string * Z)) :
  forall (k : nat) (g : Game),
  on_target order k g ->
  spaced (last_scan_time g) scans ->
  (k + length scans <= length order)%nat ->
  on_target order (k + length scans) (evaluate_all g scans).
Proof.
  unfold evaluate_all.
  induction scans as [|[code t] rest IH]; intros k g Hon Hspaced Hle; simpl.
  - now rewrite Nat.add_0_r.
  - simpl in Hspaced, Hle. destruct Hspaced as [Hcool Hrest].
    destruct (scan_timer_item_advances order k g code t Hon) as [Hon' Htime];
      [lia | exact Hcool |].
    replace (k + S (length rest))%nat with (S k + length rest)%nat by lia.
    apply IH; [exact Hon' | now rewrite Htime | lia].
Qed.

(** C4: after [start_timer_mode] on a catalog of [N] products, [N]
    evaluated scans that each pass the cooldown gate leave no current
    target, whatever their codes resolve to; fewer than [N] such scans
    leave a target. *)
Theorem learning_session_terminates (g : Game) (start_time : Z)
    (shuffle : list Product -> list Product) (scans : list (string * Z)) :
  (forall l, shuffle l ≡ₚ l) ->
  spaced (last_scan_time g) scans ->
  let N := size (skus g) in
  let g0 := start_timer_mode g start_time shuffle in
  (length scans = N -> current_target (evaluate_all g0 scans) = None)
  /\ ((length scans < N)%nat -> current_target (evaluate_all g0 scans) <> None).
Proof.
  intros Hshuffle Hspaced N g0.
  destruct (start_timer_mode_on_target g start_time shuffle) as [Hon Htime].
  fold g0 in Hon, Htime. cbv zeta in Hon.
  set (order := shuffle (map_to_list (skus g)).*2) in *.
  assert (Hlen : length order = N).
  { subst order N. rewrite (Permutation_length (Hshuffle _)), length_fmap.
    apply length_map_to_list. }
  assert (Hrun : (length scans <= N)%nat ->
                 current_target (evaluate_all g0 scans) = order !! length scans).
  { intros Hle.
    destruct (evaluate_all_on_target order scans 0%nat g0 Hon) as (_ & Ht & _);
      [now rewrite Htime | simpl; lia | exact Ht]. }
  split.
  - intros Hn. rewrite Hrun by lia. apply lookup_ge_None. lia.
  - intros Hn. rewrite Hrun by lia.
    destruct (lookup_lt_is_Some_2 order (length scans)) as [target ->];
      [lia | discriminate].
Qed.

End Learning.

Section LearningExamples.
#[local] Existing Instance py_float.

(** The default catalog has 10 products: ten spaced scans, here all of
    the same code, end the session; nine do not. *)
Lemma learning_session_terminates_witness :
  let scans :=
    map (fun i => ("7501234567890", 1000 * i))
      [1; 2; 3; 4; 5; 6; 7; 8; 9; 10] in
  let g0 := start_timer_mode default_game 500 reverse in
  current_target (evaluate_all g0 scans) = None
  /\ current_target (evaluate_all g0 (removelast scans)) <> None.
Proof.
  cbv zeta. split.
  - apply (learning_session_terminates default_game 500 reverse).
    + intros l. apply reverse_Permutation.
    + simpl. unfold scan_cooldown. repeat split; lia.
    + vm_compute. reflexivity.
  - apply (learning_session_terminates default_game 500 reverse).
    + intros l. apply reverse_Permutation.
    + simpl. unfold scan_cooldown. repeat split; lia.
    + vm_compute. lia.
Defined.

(** Wrong and unknown codes advance the target like correct ones. *)
Example learning_advances_on_any_scan :
  let g0 := start_timer_mode demo_game 500 reverse in
  option_map name (current_target g0) = Some "Apple"
  /\ current_target (scan_timer_item g0 "00000000" 1000) = None
  /\ current_target (scan_timer_item g0 "12345678" 1000) = None
  /\ timer_correct (scan_timer_item g0 "12345678" 1000) = 1
  /\ timer_correct (scan_timer_item g0 "00000000" 1000) = 0.
Proof. vm_compute. auto. Qed.

End LearningExamples.

(** * Further properties *)

(** ** Barcode disambiguator: frame, noise, manual entry, long codes *)

Section DisambiguatorMore.
Context {NUM : Number}.

Lemma same_except_input_refl (g : Game) : same_except_input g g.
Proof. repeat split. Qed.

Lemma same_except_input_trans (g1 g2 g3 : Game) :
  same_except_input g1 g2 -> same_except_input g2 g3 ->
  same_except_input g1 g3.
Proof.
  unfold same_except_input. intros H12 H23.
  repeat match goal with H : _ /\ _ |- _ => destruct H end.
  repeat split; congruence.
Qed.

Lemma process_barcode_input_same (g : Game) (c : ascii) (t : Z) :
  same_except_input g (fst (process_barcode_input g c t)).
Proof.
  unfold process_barcode_input.
  repeat match goal with
  | |- context [if ?b then _ else _] => destruct b
  end; repeat split.
Qed.

Lemma process_barcode_complete_same (g : Game) (raw : string) :
  same_except_input g (fst (process_barcode_complete g raw)).
Proof.
  unfold process_barcode_complete.
  repeat match goal with
  | |- context [if ?b then _ else _] => destruct b
  end; repeat split.
Qed.

(** X1: the disambiguator changes nothing but the buffer, its timestamps and
    the status line: a character event or an explicit completion never
    touches the catalog, the cart, the cooldown clock or the learning
    session. *)
Theorem disambiguator_frame (g : Game) (events : list (ascii * Z))
    (raw : string) :
  same_except_input g (fst (feed g events))
  /\ same_except_input g (fst (process_barcode_complete g raw)).
Proof.
  split; [|apply process_barcode_complete_same].
  revert g. induction events as [|[c t] rest IH]; intros g; simpl.
  - apply same_except_input_refl.
  - pose proof (process_barcode_input_same g c t) as Hstep.
    destruct (process_barcode_input g c t) as [g1 out]. simpl in Hstep.
    pose proof (IH g1) as Hrest.
    destruct (feed g1 rest) as [g2 outs]. simpl in *.
    eapply same_except_input_trans; eassumption.
Qed.

Lemma feed_app (g : Game) (l1 l2 : list (ascii * Z)) :
  feed g (l1 ++ l2)
  = (fst (feed (fst (feed g l1)) l2),
     snd (feed g l1) ++ snd (feed (fst (feed g l1)) l2)).
Proof.
  revert g. induction l1 as [|[c t] rest IH]; intros g; simpl.
  - now destruct (feed g l2).
  - destruct (process_barcode_input g c t) as [g1 out].
    rewrite IH. destruct (feed g1 rest) as [g2 outs]. reflexivity.
Qed.

(** A non-alphanumeric character within the buffer timeout is a no-op. *)
Lemma noise_step (g : Game) (c : ascii) (t : Z) :
  isalnum c = false ->
  t - barcode_input_time g <= barcode_timeout ->
  process_barcode_input g c t = (g, None).
Proof.
  intros Hnoise Hfresh. unfold process_barcode_input.
  destruct (Z.gtb_spec (t - barcode_input_time g) barcode_timeout); [lia|].
  cbv zeta. now rewrite Hnoise.
Qed.

(** X2: noise inside a run is ignored: a character that is not alphanumeric
    and arrives within the buffer timeout of the last accepted character
    can be struck from the run; the final state and everything the other
    calls return are the same, and the call itself returns nothing.  It
    neither extends nor interrupts a burst. *)
Theorem noise_ignored (g : Game) (before after : list (ascii * Z))
    (c : ascii) (t : Z) :
  isalnum c = false ->
  t - barcode_input_time (fst (feed g before)) <= barcode_timeout ->
  fst (feed g (before ++ (c, t) :: after)) = fst (feed g (before ++ after))
  /\ snd (feed g (before ++ (c, t) :: after))
     = snd (feed g before) ++ None :: snd (feed (fst (feed g before)) after).
Proof.
  intros Hnoise Hfresh. rewrite !feed_app. simpl feed.
  rewrite (noise_step _ c t Hnoise Hfresh).
  destruct (feed (fst (feed g before)) after) as [g2 outs]. auto.
Qed.

(** One slow key: whatever was pending, the buffer afterwards is that
    single character. *)
Lemma slow_key (g : Game) (c : ascii) (t : Z) :
  isalnum c = true ->
  scanner_speed_threshold <= t - last_key_time g ->
  let r := process_barcode_input g c t in
  snd r = None
  /\ barcode_buffer (fst r) = String c ""
  /\ last_key_time (fst r) = t.
Proof.
  intros Halnum Hslow. unfold process_barcode_input. rewrite Halnum.
  assert (Hfast : forall g0, last_key_time g0 = last_key_time g ->
            (t - last_key_time g0 <? scanner_speed_threshold) = false).
  { intros g0 ->. apply Z.ltb_ge. exact Hslow. }
  destruct (t - barcode_input_time g >? barcode_timeout).
  - rewrite (Hfast (set_barcode_buffer g "") eq_refl). simpl. auto.
  - rewrite (Hfast g eq_refl).
    destruct (barcode_buffer g) as [|c0 b] eqn:Hb; simpl; auto.
Qed.

(** X3: manual entry: when every key comes at least
    [scanner_speed_threshold] after the previous one, no code is ever
    returned and after each key the buffer holds that key alone. *)
Theorem manual_entry (g : Game) (events : list (ascii * Z))
    (c : ascii) (t : Z) :
  Forall (fun e => isalnum (fst e) = true) (events ++ [(c, t)]) ->
  slow (last_key_time g) (events ++ [(c, t)]) ->
  snd (feed g (events ++ [(c, t)]))
  = replicate (S (length events)) None
  /\ barcode_buffer (fst (feed g (events ++ [(c, t)]))) = String c "".
Proof.
  revert g. induction events as [|[c0 t0] rest IH]; intros g Halnum Hslow.
  - simpl app in *. simpl feed.
    pose proof (Forall_inv Halnum) as Hc. simpl in Hc, Hslow.
    destruct Hslow as [Hgap _].
    destruct (slow_key g c t Hc Hgap) as (Hout & Hbuf & _).
    destruct (process_barcode_input g c t) as [g1 out]. simpl in *.
    subst out. auto.
  - simpl app in *. simpl feed.
    pose proof (Forall_inv Halnum) as Hc. simpl in Hc.
    pose proof (Forall_inv_tail Halnum) as Hrest.
    simpl in Hslow. destruct Hslow as [Hgap Hslow].
    destruct (slow_key g c0 t0 Hc Hgap) as (Hout & _ & Hlast).
    destruct (process_barcode_input g c0 t0) as [g1 out]. simpl in *.
    destruct (IH g1 Hrest) as [Houts Hbuf]; [now rewrite Hlast|].
    destruct (feed g1 (rest ++ [(c, t)])) as [g2 outs]. simpl in *.
    subst out. rewrite Houts. auto.
Qed.

(** X4: a burst that brings the buffer to 13 characters without passing
    through a catalog key is returned as a code whether or not it is in
    the catalog: nothing is returned before the last character, and the
    buffer is empty afterwards. *)
Theorem burst_completes_at_13 (events : list (ascii * Z)) :
  forall (g : Game) (code : string),
  events <> [] ->
  continues g events ->
  Forall (fun e => isalnum (fst e) = true) events ->
  no_key_before_end (skus g) (barcode_buffer g) events ->
  barcode_buffer g +:+ typed events = code ->
  String.length code = 13%nat ->
  snd (feed g events) = replicate (length events - 1) None ++ [Some code]
  /\ barcode_buffer (fst (feed g events)) = "".
Proof.
  induction events as [|[c t] rest IH];
    intros g code Hne Hcont Halnum Hnokey Hcode Hlen; [congruence|].
  destruct Hcont as [Happ Hburst].
  pose proof (Forall_inv Halnum) as Hc. simpl in Hc.
  pose proof (Forall_inv_tail Halnum) as Hrest.
  destruct (accepted_character g c t Hc Happ) as (Hskus & Hit & Hlk & Hout).
  simpl feed. destruct (process_barcode_input g c t) as [g1 out] eqn:Hstep.
  cbn [fst snd] in Hskus, Hit, Hlk, Hout.
  assert (Hlen' : (String.length (barcode_buffer g +:+ String c "")
                   + length rest = 13)%nat).
  { rewrite <- Hlen, <- Hcode. simpl typed.
    rewrite !string_length_append. simpl String.length.
    rewrite typed_length. lia. }
  destruct rest as [|[c' t'] rest'].
  - simpl in Hcode. rewrite Hcode in Hout, Hlen'.
    simpl in Hlen'. rewrite Nat.add_0_r in Hlen'. rewrite Hlen' in Hout.
    rewrite orb_true_r in Hout.
    simpl in Hout. destruct Hout as [-> Hcleared]. simpl. auto.
  - simpl in Hnokey. destruct Hnokey as [Hnot Hnokey].
    assert (Hshort : (13 <=? String.length
                                (barcode_buffer g +:+ String c ""))%nat = false).
    { apply Nat.leb_gt. simpl in Hlen'. lia. }
    rewrite Hnot, Hshort, andb_false_r in Hout.
    destruct Hout as [-> Hbuf].
    destruct (IH g1 code) as [Houts Hfinal].
    + discriminate.
    + destruct Hburst as [Hgap Hburst']. split; [|exact Hburst'].
      right. rewrite Hit, Hlk.
      unfold barcode_timeout, scanner_speed_threshold in *. lia.
    + exact Hrest.
    + rewrite Hskus, Hbuf. exact Hnokey.
    + rewrite Hbuf, <- Hcode. simpl typed.
      rewrite string_append_assoc. reflexivity.
    + exact Hlen.
    + destruct (feed g1 ((c', t') :: rest')) as [g2 outs].
      simpl in Houts, Hfinal. simpl. split; [|exact Hfinal].
      rewrite Houts. simpl. rewrite Nat.sub_0_r. reflexivity.
Qed.

End DisambiguatorMore.

Section DisambiguatorInvariant.
Context {NUM : Number}.

Lemma all_alnum_append (a b : string) :
  all_alnum (a +:+ b) = all_alnum a && all_alnum b.
Proof.
  induction a as [|x a IH]; [reflexivity|].
  rewrite append_cons. simpl. rewrite IH. now rewrite andb_assoc.
Qed.

Lemma keep_alnum_id (s : string) : all_alnum s = true -> keep_alnum s = s.
Proof.
  induction s as [|c s IH]; simpl; [reflexivity|].
  intros H. apply andb_true_iff in H as [Hc Hs]. rewrite Hc. now rewrite IH.
Qed.

(** One character event keeps the buffer well formed, and a code it
    returns is well formed. *)
Lemma process_barcode_input_ok (g : Game) (c : ascii) (t : Z) :
  buffer_ok g ->
  buffer_ok (fst (process_barcode_input g c t))
  /\ forall code, snd (process_barcode_input g c t) = Some code ->
                  code_ok g code.
Proof.
  intros [Halnum Hlen].
  assert (Hbase : forall g0 : Game,
            skus g0 = skus g -> all_alnum (barcode_buffer g0) = true ->
            (String.length (barcode_buffer g0) <= 12)%nat ->
            let r :=
              if isalnum c then
                if negb (nonempty (barcode_buffer g0))
                   || (t - last_key_time g0 <? scanner_speed_threshold)
                then
                  let g1 := set_barcode_buffer g0
                              (barcode_buffer g0 +:+ String c "") in
                  let g1 := set_barcode_input_time g1 t in
                  let g1 := set_last_key_time g1 t in
                  let g1 :=
                    if (0 <? String.length (barcode_buffer g1))%nat
                    then set_scanned_item g1 (MsgScanning (barcode_buffer g1))
                    else g1 in
                  if (8 <=? String.length (barcode_buffer g1))%nat then
                    if has_key (skus g1) (barcode_buffer g1) then
                      (set_barcode_buffer g1 "", Some (barcode_buffer g1))
                    else if (13 <=? String.length (barcode_buffer g1))%nat
                    then (set_barcode_buffer g1 "", Some (barcode_buffer g1))
                    else (g1, None)
                  else (g1, None)
                else
                  let g1 := set_barcode_buffer g0 (String c "") in
                  let g1 := set_barcode_input_time g1 t in
                  let g1 := set_last_key_time g1 t in
                  (g1, None)
              else (g0, None) in
            buffer_ok (fst r)
            /\ forall code, snd r = Some code -> code_ok g code).
  { intros g0 Hskus Ha Hl. cbv zeta.
    destruct (isalnum c) eqn:Hc; [|split; [split; assumption | discriminate]].
    destruct (negb (nonempty (barcode_buffer g0))
              || (t - last_key_time g0 <? scanner_speed_threshold)).
    - cbn [barcode_buffer set_barcode_buffer set_barcode_input_time
             set_last_key_time].
      set (buffer := barcode_buffer g0 +:+ String c "").
      assert (Hba : all_alnum buffer = true).
      { subst buffer. rewrite all_alnum_append, Ha. simpl. now rewrite Hc. }
      assert (Hbl : String.length buffer = S (String.length (barcode_buffer g0))).
      { subst buffer. rewrite string_length_append. simpl. lia. }
      destruct (0 <? String.length buffer)%nat;
        cbn [barcode_buffer skus set_barcode_buffer set_barcode_input_time
               set_last_key_time set_scanned_item];
        rewrite Hskus;
        destruct (Nat.leb_spec 8 (String.length buffer));
        try destruct (has_key (skus g) buffer) eqn:Hkey;
        try destruct (Nat.leb_spec 13 (String.length buffer));
        cbn [fst snd barcode_buffer set_barcode_buffer set_scanned_item
               set_last_key_time set_barcode_input_time];
        (split;
         [split; [reflexivity || assumption | simpl; lia]
         |intros code [= <-] || discriminate]);
        try (split; [assumption | split; [lia | auto; right; lia]]).
    - cbn [fst snd barcode_buffer set_barcode_buffer set_barcode_input_time
             set_last_key_time].
      split; [|discriminate]. split; [simpl; now rewrite Hc | simpl; lia]. }
  unfold process_barcode_input.
  destruct (t - barcode_input_time g >? barcode_timeout).
  - apply (Hbase (set_barcode_buffer g "")); [reflexivity.. | simpl; lia].
  - apply (Hbase g); [reflexivity | assumption..].
Qed.

(** X5: whatever is fed to the disambiguator from a well-formed buffer (the
    empty one, for instance), the buffer stays alphanumeric and never
    exceeds 12 characters, and every code returned is alphanumeric, has 8
    to 13 characters, and is a catalog key unless it has 13. *)
Theorem disambiguator_output (g : Game) (events : list (ascii * Z)) :
  buffer_ok g ->
  buffer_ok (fst (feed g events))
  /\ Forall (fun out => forall code, out = Some code -> code_ok g code)
       (snd (feed g events)).
Proof.
  revert g. induction events as [|[c t] rest IH]; intros g Hok; simpl.
  - split; [exact Hok | constructor].
  - destruct (process_barcode_input_ok g c t Hok) as [Hok1 Hcode1].
    pose proof (process_barcode_input_same g c t) as Hsame.
    destruct (process_barcode_input g c t) as [g1 out]. simpl in *.
    destruct (IH g1 Hok1) as [Hok2 Hcodes].
    destruct (feed g1 rest) as [g2 outs]. simpl in *.
    split; [exact Hok2|]. constructor; [exact Hcode1|].
    destruct Hsame as (_ & Hskus & _).
    eapply Forall_impl; [exact Hcodes|].
    intros out' H code Hc. specialize (H code Hc).
    unfold code_ok in *. now rewrite <- Hskus.
Qed.

(** X6: enter on a buffer the disambiguator built: the buffer is returned as
    it stands exactly when it has at least 8 characters and is a catalog
    key (stripping changes nothing), and is then cleared. *)
Theorem completion_of_clean_buffer (g : Game) :
  buffer_ok g ->
  process_barcode_complete g (barcode_buffer g)
  = if (8 <=? String.length (barcode_buffer g))%nat
       && has_key (skus g) (barcode_buffer g)
    then (set_barcode_buffer g "", Some (barcode_buffer g))
    else (g, None).
Proof.
  intros [Halnum _]. unfold process_barcode_complete.
  rewrite (keep_alnum_id _ Halnum).
  destruct (barcode_buffer g) as [|c b]; [reflexivity|].
  simpl nonempty. rewrite andb_true_l.
  destruct (8 <=? _)%nat; [|reflexivity].
  destruct (has_key _ _); reflexivity.
Qed.

End DisambiguatorInvariant.

(** ** Key handlers and the serial queue *)

Section HandlersMore.
Context {NUM : Number}.

Lemma isdigit_isalnum (c : ascii) : isdigit c = true -> isalnum c = true.
Proof.
  unfold isdigit, isalnum. set (n := N_of_ascii c). intros H.
  repeat (apply orb_true_iff in H as [H | H]).
  - apply andb_true_iff in H as [H1 H2].
    apply N.leb_le in H1. apply N.leb_le in H2.
    repeat (apply orb_true_iff; left).
    apply andb_true_iff. split; apply N.leb_le; lia.
  - apply N.eqb_eq in H. rewrite H. reflexivity.
  - apply N.eqb_eq in H. rewrite H. reflexivity.
  - apply N.eqb_eq in H. rewrite H. reflexivity.
Qed.

(** With fewer than 7 characters pending, one more character cannot
    complete a code. *)
Lemma short_buffer_pending (g : Game) (c : ascii) (t : Z) :
  (String.length (barcode_buffer g) < 7)%nat ->
  snd (process_barcode_input g c t) = None.
Proof.
  intros Hshort. unfold process_barcode_input.
  destruct (t - barcode_input_time g >? barcode_timeout); cbv zeta;
    (destruct (isalnum c); [|reflexivity]);
    (match goal with
     | |- context [negb (nonempty ?b) || ?f] =>
         destruct (negb (nonempty b) || f); [|reflexivity]
     end);
    cbn [barcode_buffer set_barcode_buffer set_barcode_input_time
           set_last_key_time];
    (match goal with
     | |- context [(0 <? String.length ?b)%nat] =>
         destruct (0 <? String.length b)%nat
     end);
    cbn [barcode_buffer skus set_barcode_buffer set_barcode_input_time
           set_last_key_time set_scanned_item];
    (match goal with
     | |- context [(8 <=? String.length ?b)%nat] =>
         destruct (Nat.leb_spec 8 (String.length b)) as [Hlong|]
     end); try reflexivity;
    rewrite string_length_append in Hlong; simpl in Hlong; lia.
Qed.

Lemma accepted_same (h : Handler) (g g' : Game) (t : Z) :
  same_except_input g g' -> accepted h g t -> accepted h g' t.
Proof.
  intros Hsame [Hcool Htarget].
  destruct Hsame as (_&_&_&_&_&_&_&_&_&_& Ht &_&_&_& Hl).
  unfold accepted. rewrite Hl, Ht. auto.
Qed.

(** A key pressed while the cooldown runs only feeds the disambiguator:
    whatever it completes or abbreviates is dropped. *)
Lemma key_press_in_cooldown (h : Handler) (g : Game) (k : KeyPress) :
  scan_clock k - last_scan_time g < scan_cooldown ->
  key_press h g k
  = fst (process_barcode_input g (key_char k) (input_clock k)).
Proof.
  intros Hcool.
  pose proof (process_barcode_input_same g (key_char k) (input_clock k))
    as Hsame.
  destruct h; simpl; unfold retail_key_char, timer_key_char;
    destruct (process_barcode_input g (key_char k) (input_clock k))
      as [g1 barcode]; simpl in *;
    destruct Hsame as (_&_&_&_&_&_&_&_&_&_&_&_&_&_& Hl);
    rewrite <- Hl in Hcool.
  - pose proof (fun code =>
        submit_dropped Retail g1 code (scan_clock k) (wall_clock k)
          (stamp_text k) Hcool) as Hdrop. simpl in Hdrop.
    destruct barcode as [code|]; [destruct (nonempty code)|];
      try destruct (isdigit (key_char k)); rewrite ?Hdrop; reflexivity.
  - pose proof (fun code =>
        submit_dropped Learning g1 code (scan_clock k) (wall_clock k)
          (stamp_text k) Hcool) as Hdrop. simpl in Hdrop.
    destruct barcode as [code|]; [destruct (nonempty code)|];
      try destruct (isdigit (key_char k)); rewrite ?Hdrop; reflexivity.
Qed.

Lemma key_presses_in_cooldown (h : Handler) (keys : list KeyPress) :
  forall (g : Game),
  Forall (fun k => scan_clock k - last_scan_time g < scan_cooldown) keys ->
  same_except_input g (key_presses h g keys).
Proof.
  unfold key_presses.
  induction keys as [|k rest IH]; intros g Hall; simpl.
  - apply same_except_input_refl.
  - inversion Hall as [|? ? Hk Hrest]; subst.
    rewrite (key_press_in_cooldown h g k Hk).
    pose proof (process_barcode_input_same g (key_char k) (input_clock k))
      as Hsame.
    eapply same_except_input_trans; [exact Hsame|].
    apply IH.
    destruct Hsame as (_&_&_&_&_&_&_&_&_&_&_&_&_&_& Hl).
    now rewrite Hl.
Qed.

(** X7: a digit key is tried as a shortcut as soon as it is pressed, also
    when it is the first character of a scanned code.  If that scan is
    accepted, it starts the cooldown: every key whose scan clock is
    within [scan_cooldown] of it, and the code such keys complete, reach
    neither the cart nor the learning session.  The state after the
    whole run differs from the state after the first key only in the
    input buffer and the status line. *)
Theorem first_digit_blocks_code (h : Handler) (g : Game) (first : KeyPress)
    (rest : list KeyPress) :
  Forall (reaches_input h) (first :: rest) ->
  isdigit (key_char first) = true ->
  (String.length (barcode_buffer g) < 7)%nat ->
  accepted h g (scan_clock first) ->
  Forall (fun k => scan_clock k - scan_clock first < scan_cooldown) rest ->
  let g1 :=
    fst (process_barcode_input g (key_char first) (input_clock first)) in
  let g2 :=
    submit h g1 (String (key_char first) "") (scan_clock first)
      (wall_clock first) (stamp_text first) in
  key_press h g first = g2
  /\ last_scan_time g2 = scan_clock first
  /\ same_except_input g2 (key_presses h g (first :: rest)).
Proof.
  intros _ Hdigit Hshort Hacc Hrest g1 g2.
  assert (Hfirst : key_press h g first = g2).
  { subst g1 g2.
    pose proof (short_buffer_pending g (key_char first) (input_clock first)
                  Hshort) as Hnone.
    destruct h; simpl; unfold retail_key_char, timer_key_char;
      destruct (process_barcode_input g (key_char first) (input_clock first))
        as [g1 barcode]; simpl in *; subst barcode;
      now rewrite Hdigit. }
  assert (Htime : last_scan_time g2 = scan_clock first).
  { subst g2. apply submit_accepted.
    apply (accepted_same h g g1); [|exact Hacc].
    apply process_barcode_input_same. }
  split; [exact Hfirst | split; [exact Htime|]].
  unfold key_presses. simpl fold_left. rewrite Hfirst.
  apply (key_presses_in_cooldown h rest g2).
  now rewrite Htime.
Qed.

(** What [process_queued] leaves alone, and when it does nothing. *)
Lemma process_queued_cases (g : Game) (q : QueuedScan) :
  process_queued g q = g
  \/ (last_scan_time (process_queued g q) = queued_clock q
      /\ state (process_queued g q) = state g).
Proof.
  unfold process_queued. destruct (state g) eqn:Hstate; auto.
  - destruct (submit_cases Retail g (queued_barcode q) (queued_clock q)
                (queued_wall q) (queued_stamp q)) as [Hsame | Hacc];
      [left; exact Hsame | right].
    split; [exact (submit_accepted Retail g (queued_barcode q) _
                     (queued_wall q) (queued_stamp q) Hacc)|].
    simpl. unfold scan_item.
    destruct (_ <? _); [exact Hstate|].
    destruct (lookup_product _ _) as [product|]; [|exact Hstate].
    cbv zeta. unfold add_to_cart.
    destruct (cart_has _ _); exact Hstate.
  - destruct (submit_cases Learning g (queued_barcode q) (queued_clock q)
                (queued_wall q) (queued_stamp q)) as [Hsame | Hacc];
      [left; exact Hsame | right].
    split; [exact (submit_accepted Learning g (queued_barcode q) _
                     (queued_wall q) (queued_stamp q) Hacc)|].
    simpl. unfold scan_timer_item.
    destruct (current_target g); [|exact Hstate].
    destruct (_ <? _); [exact Hstate|].
    destruct (lookup_product _ _) as [product|];
      [destruct (String.eqb _ _)|];
      unfold generate_new_target; destruct (_ <? _)%nat; exact Hstate.
Qed.

Lemma drained_in_cooldown (queue : list QueuedScan) (g : Game) :
  Forall (fun q => queued_clock q - last_scan_time g < scan_cooldown) queue ->
  check_serial_scanner g queue = g.
Proof.
  unfold check_serial_scanner.
  induction queue as [|q rest IH]; intros Hall; simpl; [reflexivity|].
  inversion Hall as [|? ? Hq Hrest]; subst.
  assert (Hdrop : process_queued g q = g).
  { unfold process_queued. destruct (state g); try reflexivity.
    - exact (submit_dropped Retail g _ _ (queued_wall q) (queued_stamp q) Hq).
    - exact (submit_dropped Learning g _ _ (queued_wall q) (queued_stamp q) Hq). }
  rewrite Hdrop. exact (IH Hrest).
Qed.

(** X8: barcodes drained from the serial queue in one frame (all clock
    values within one window shorter than the cooldown): at most one of
    them is processed with effect, the others are lost; outside retail
    and learning mode all of them are lost. *)
Theorem drained_batch_registers_one (g : Game) (queue : list QueuedScan)
    (start : Z) :
  one_window start queue ->
  (check_serial_scanner g queue = g
   \/ exists q, In q queue /\ check_serial_scanner g queue = process_queued g q)
  /\ (state g <> RETAIL_MODE -> state g <> TIMER_MODE ->
      check_serial_scanner g queue = g).
Proof.
  intros Hwindow. split.
  - unfold check_serial_scanner.
    induction queue as [|q rest IH]; simpl; [left; reflexivity|].
    inversion Hwindow as [|? ? [Hlo Hhi] Hrest]; subst.
    destruct (process_queued_cases g q) as [Hsame | [Htime _]].
    + rewrite Hsame. destruct (IH Hrest) as [Hg | (q' & Hin & Hq')];
        [left; exact Hg | right; exists q'; auto].
    + right. exists q. split; [now left|].
      apply (drained_in_cooldown rest (process_queued g q)).
      rewrite Htime. eapply Forall_impl; [exact Hrest|].
      intros q' [Hlo' Hhi']. simpl in *. lia.
  - intros Hretail Htimer. unfold check_serial_scanner.
    clear Hwindow. induction queue as [|q rest IH]; simpl; [reflexivity|].
    assert (Hq : process_queued g q = g).
    { unfold process_queued. destruct (state g); congruence. }
    rewrite Hq. exact IH.
Qed.

(** X9: a shortcut key is the same as the barcode it stands for: scanning
    the key and scanning its target SKU (which is not itself a shortcut
    key) give the same state, in retail and in learning mode. *)
Theorem shortcut_same_as_barcode (h : Handler) (g : Game)
    (key target : string) (t : Z) (wall : num) (stamp : string) :
  keyboard_shortcuts g !! key = Some target ->
  keyboard_shortcuts g !! target = None ->
  submit h g key t wall stamp = submit h g target t wall stamp.
Proof.
  intros Hkey Htarget.
  assert (Hlookup : forall g0, keyboard_shortcuts g0 = keyboard_shortcuts g ->
            skus g0 = skus g ->
            lookup_product g0 key = lookup_product g0 target).
  { intros g0 Hks Hs. unfold lookup_product. now rewrite Hks, Hkey, Htarget. }
  destruct h; simpl.
  - unfold scan_item. destruct (_ <? _); [reflexivity|].
    rewrite (Hlookup (set_last_scan_time g t) eq_refl eq_refl).
    cbn [keyboard_shortcuts set_last_scan_time].
    now rewrite Hkey, Htarget.
  - unfold scan_timer_item. destruct (current_target g); [|reflexivity].
    destruct (_ <? _); [reflexivity|].
    now rewrite (Hlookup (set_last_scan_time g t) eq_refl eq_refl).
Qed.

(** X10: when every shortcut points into the catalog, lookup fails exactly
    for the codes that are neither a shortcut key nor a SKU; and a
    product it returns is always one stored in the catalog. *)
Theorem lookup_product_known (g : Game) (code : string) :
  catalog_ok g ->
  (lookup_product g code = None
   <-> has_key (keyboard_shortcuts g) code = false
       /\ has_key (skus g) code = false)
  /\ (forall product, lookup_product g code = Some product ->
        exists sku, skus g !! sku = Some product).
Proof.
  intros Hok. unfold lookup_product, has_key. split.
  - destruct (keyboard_shortcuts g !! code) as [target|] eqn:Hk.
    + destruct (Hok code target Hk) as [product Hp]. rewrite Hp.
      split; [discriminate | intros [[=] _]].
    + destruct (skus g !! code); split; try tauto; try discriminate.
      intros [_ [=]].
  - intros product.
    destruct (keyboard_shortcuts g !! code) as [target|]; eauto.
Qed.

End HandlersMore.

(** ** Serial reader *)

Lemma serial_chunk_queued (buffer text : string) :
  Forall (fun code => complete_text code = true)
    (snd (serial_chunk buffer text)).
Proof.
  unfold serial_chunk, complete_text.
  destruct (nonempty text); [|constructor].
  destruct ((8 <=? String.length text)%nat && str_isalnum text) eqn:Htext.
  - repeat constructor. exact Htext.
  - destruct ((8 <=? String.length (buffer +:+ text))%nat
              && str_isalnum (buffer +:+ text)) eqn:Hbuf.
    + repeat constructor. exact Hbuf.
    + constructor.
Qed.

(** X11: whatever texts arrive, every string the reader puts on the queue has
    at least 8 characters, all of them alphanumeric. *)
Theorem serial_queue_well_formed (buffer : string) (texts : list string) :
  Forall (fun code => (8 <= String.length code)%nat /\ all_alnum code = true)
    (snd (read_serial_scanner buffer texts)).
Proof.
  revert buffer. induction texts as [|text rest IH]; intros buffer; simpl.
  - constructor.
  - pose proof (serial_chunk_queued buffer text) as Hnow.
    destruct (serial_chunk buffer text) as [buffer1 queued].
    specialize (IH buffer1).
    destruct (read_serial_scanner buffer1 rest) as [buffer2 later].
    simpl in *. apply Forall_app. split; [|exact IH].
    eapply Forall_impl; [exact Hnow|].
    intros code Hc. unfold complete_text, str_isalnum in Hc.
    apply andb_true_iff in Hc as [Hlen Hal].
    apply andb_true_iff in Hal as [_ Hal].
    apply Nat.leb_le in Hlen. auto.
Qed.

Lemma serial_chunk_noisy (buffer text : string) :
  all_alnum buffer = false ->
  snd (serial_chunk buffer text) = (if complete_text text then [text] else [])
  /\ all_alnum (fst (serial_chunk buffer text)) = false.
Proof.
  intros Hnoise. unfold serial_chunk, complete_text.
  destruct text as [|c text']; [simpl; auto|].
  simpl nonempty. cbv iota.
  destruct ((8 <=? String.length (String c text'))%nat
            && str_isalnum (String c text')); [auto|].
  assert (Hbad : str_isalnum (buffer +:+ String c text') = false).
  { unfold str_isalnum. rewrite all_alnum_append, Hnoise.
    now rewrite andb_false_r. }
  rewrite Hbad, andb_false_r. cbn [fst snd].
  split; [reflexivity|]. now rewrite all_alnum_append, Hnoise.
Qed.

(** X12: the partial-data buffer of the reader is only reset when it is
    queued, and it is only queued when it is alphanumeric.  So once a
    fragment with a non-alphanumeric character has entered it, it stays
    spoilt: from then on the reader queues exactly the texts that are
    complete on their own, and no fragments are ever assembled again. *)
Theorem serial_buffer_spoilt (buffer : string) (texts : list string) :
  all_alnum buffer = false ->
  snd (read_serial_scanner buffer texts) = List.filter complete_text texts
  /\ all_alnum (fst (read_serial_scanner buffer texts)) = false.
Proof.
  revert buffer. induction texts as [|text rest IH]; intros buffer Hnoise.
  - simpl. auto.
  - simpl read_serial_scanner.
    destruct (serial_chunk_noisy buffer text Hnoise) as [Hq Hb].
    destruct (serial_chunk buffer text) as [buffer1 queued].
    cbn [fst snd] in Hq, Hb.
    destruct (IH buffer1 Hb) as [Hlater Hfinal].
    destruct (read_serial_scanner buffer1 rest) as [buffer2 later].
    cbn [fst snd] in *. split; [|exact Hfinal].
    rewrite Hq, Hlater. simpl List.filter.
    destruct (complete_text text); reflexivity.
Qed.

Lemma serial_buffer_spoilt_witness :
  snd (read_serial_scanner "12-34" ["5678"; "ABCDEFGH"; "9012"; "34567890"])
  = ["ABCDEFGH"; "34567890"]
  /\ all_alnum
       (fst (read_serial_scanner "12-34"
               ["5678"; "ABCDEFGH"; "9012"; "34567890"])) = false.
Proof.
  apply (serial_buffer_spoilt "12-34"
           ["5678"; "ABCDEFGH"; "9012"; "34567890"]).
  reflexivity.
Defined.

(** Fragments are assembled while the buffer is clean: "1234" and "5678"
    are queued as one code; after the fragment "12-34" nothing is. *)
Example serial_fragments :
  read_serial_scanner "" ["1234"; "5678"] = ("", ["12345678"])
  /\ read_serial_scanner "" ["12-34"; "1234"; "5678"]
     = ("12-3412345678", []).
Proof. vm_compute. auto. Qed.

(** ** Cart ledger: well-formedness, removal target, receipt log *)

Section LedgerMore.
Context {NUM : Number}.

Lemma Forall_cart_get (P : string * CartItem -> Prop)
    (c : list (string * CartItem)) (k : string) (item : CartItem) :
  Forall P c -> cart_get c k = Some item -> P (k, item).
Proof.
  induction c as [|[k' it] rest IH]; simpl; [discriminate|].
  intros Hall. inversion Hall as [|? ? Hhead Hrest]; subst.
  destruct (String.eqb_spec k' k) as [-> | Hk]; intros Hget.
  - injection Hget as ->. exact Hhead.
  - auto.
Qed.

Lemma Forall_cart_alter (P : string * CartItem -> Prop)
    (f : CartItem -> CartItem) (k : string) (c : list (string * CartItem))
    (item : CartItem) :
  Forall P c -> cart_get c k = Some item -> P (k, f item) ->
  Forall P (cart_alter f k c).
Proof.
  intros Hall Hget Hf. induction c as [|[k' it] rest IH]; simpl; [constructor|].
  inversion Hall as [|? ? Hhead Hrest]; subst. simpl in Hget.
  destruct (String.eqb_spec k' k) as [-> | Hk].
  - injection Hget as ->. constructor; assumption.
  - constructor; auto.
Qed.

Lemma Forall_cart_del (P : string * CartItem -> Prop) (k : string)
    (c : list (string * CartItem)) :
  Forall P c -> Forall P (cart_del k c).
Proof.
  intros Hall. induction c as [|[k' it] rest IH]; simpl; [constructor|].
  inversion Hall as [|? ? Hhead Hrest]; subst.
  destruct (String.eqb k' k); [assumption | constructor; auto].
Qed.

Lemma cart_step_cart_ok (g : Game) (op : CartOp) :
  cart_ok (cart g) -> cart_ok (cart (cart_step g op)).
Proof.
  intros [Hnd Hall]. split; [now apply cart_step_NoDup|].
  destruct op as [product sku wall stamp| |]; unfold cart_step.
  - rewrite add_to_cart_cart. unfold cart_has.
    destruct (cart_get (cart g) sku) as [item|] eqn:Hget.
    + destruct (Forall_cart_get _ _ _ _ Hall Hget) as [Hsku Hq].
      simpl in Hsku, Hq.
      apply (Forall_cart_alter _ _ _ _ item); [assumption..|].
      simpl. split; [exact Hsku | lia].
    + apply Forall_app. split; [assumption|].
      repeat constructor. simpl. lia.
  - destruct (remove_last_item_effect g)
      as [[Hc _] | (k & item & _ & _ & Hget & _ & Hc)]; rewrite Hc;
      [assumption|].
    destruct (Forall_cart_get _ _ _ _ Hall Hget) as [Hsku Hq].
    simpl in Hsku, Hq.
    destruct (Z.gtb_spec (quantity item) 1).
    + apply (Forall_cart_alter _ _ _ _ item); [assumption..|].
      simpl. split; [exact Hsku | lia].
    + now apply Forall_cart_del.
  - constructor.
Qed.

(** What a retail scan does to the state: nothing (cooldown), only the
    clock and the status line (lookup failed), or [add_to_cart] of a
    product under the SKU the catalog stores it under. *)
Lemma scan_item_effect (g : Game) (code : string) (t : Z) (wall : num)
    (stamp : string) :
  scan_item g code t wall stamp = g
  \/ scan_item g code t wall stamp
     = set_scanned_item (set_last_scan_time g t) MsgProductNotFound
  \/ exists (product : Product) (sku : string),
       skus g !! sku = Some product
       /\ scan_item g code t wall stamp
          = set_scanned_item
              (fst (add_to_cart (set_last_scan_time g t) product sku wall stamp))
              (snd (add_to_cart (set_last_scan_time g t) product sku wall stamp)).
Proof.
  unfold scan_item. destruct (_ <? _); [left; reflexivity | right].
  unfold lookup_product.
  cbn [keyboard_shortcuts skus set_last_scan_time].
  destruct (keyboard_shortcuts g !! code) as [target|].
  - destruct (skus g !! target) as [product|] eqn:Hp;
      [right; exists product, target | left; reflexivity].
    split; [exact Hp|]. cbv zeta.
    now destruct (add_to_cart _ _ _ _ _).
  - destruct (skus g !! code) as [product|] eqn:Hp;
      [right; exists product, code | left; reflexivity].
    split; [exact Hp|]. cbv zeta.
    now destruct (add_to_cart _ _ _ _ _).
Qed.

Lemma retail_step_cart_ok (g : Game) (ev : RetailEvent) :
  cart_ok (cart g) -> cart_ok (cart (retail_step g ev)).
Proof.
  intros Hok. destruct ev as [code t wall stamp| |]; unfold retail_step.
  - destruct (scan_item_effect g code t wall stamp)
      as [-> | [-> | (product & sku & _ & ->)]]; try exact Hok.
    exact (cart_step_cart_ok (set_last_scan_time g t)
             (OpAdd product sku wall stamp) Hok).
  - exact (cart_step_cart_ok g OpRemoveLast Hok).
  - exact (cart_step_cart_ok g OpClear Hok).
Qed.

(** X13: the cart stays a well-formed dict of lines through any sequence of
    cart operations and any sequence of retail events: its keys are
    distinct, every line is stored under its own SKU, and no line has a
    quantity below one (a line whose quantity would drop to zero is
    deleted instead). *)
Theorem cart_well_formed (g : Game) (ops : list CartOp)
    (events : list RetailEvent) :
  cart_ok (cart g) ->
  cart_ok (cart (run_cart g ops)) /\ cart_ok (cart (run_retail g events)).
Proof.
  intros Hok. split.
  - unfold run_cart. revert g Hok.
    induction ops as [|op rest IH]; intros g Hok; simpl; [exact Hok|].
    apply IH. now apply cart_step_cart_ok.
  - unfold run_retail. revert g Hok.
    induction events as [|ev rest IH]; intros g Hok; simpl; [exact Hok|].
    apply IH. now apply retail_step_cart_ok.
Qed.

Lemma most_recent_alter (f : CartItem -> CartItem) (k : string)
    (c : list (string * CartItem)) :
  (forall it, first_added (f it) = first_added it) ->
  most_recent (cart_alter f k c) = most_recent c.
Proof.
  intros Hf. unfold most_recent. generalize (@None string, nzero).
  induction c as [|[k' it] rest IH]; intros acc; simpl; [reflexivity|].
  destruct (String.eqb k' k); simpl; [now rewrite Hf | apply IH].
Qed.

(** X14: scanning an item that is already in the cart does not make it the
    "last" item: the line [remove_last_item] selects is the same as
    before the scan.  If that line is another one, a removal right after
    the scan leaves the line just incremented as it is. *)
Theorem rescan_keeps_removal_target (g : Game) (product : Product)
    (sku : string) (wall : num) (stamp : string) :
  cart_has (cart g) sku = true ->
  let g' := fst (add_to_cart g product sku wall stamp) in
  most_recent (cart g') = most_recent (cart g)
  /\ (forall k, fst (most_recent (cart g)) = Some k -> k <> sku ->
        cart_get (cart (remove_last_item g')) sku = cart_get (cart g') sku).
Proof.
  intros Hhas g'.
  assert (Hsame : most_recent (cart g') = most_recent (cart g)).
  { subst g'. rewrite add_to_cart_cart, Hhas. now apply most_recent_alter. }
  split; [exact Hsame|].
  intros k Hk Hne.
  destruct (remove_last_item_effect g')
    as [[Hc _] | (k' & item & Hk' & _ & _ & _ & Hc)]; rewrite Hc;
    [reflexivity|].
  rewrite Hsame, Hk in Hk'. injection Hk' as <-.
  destruct (quantity item >? 1);
    [now apply cart_get_alter_other | now apply cart_get_del_other].
Qed.

Lemma total_items_from (c : list (string * CartItem)) (a : Z) :
  fold_left (fun acc entry => acc + quantity (snd entry)) c a
  = a + total_items c.
Proof.
  unfold total_items. revert a.
  induction c as [|e rest IH]; intros a; simpl; [lia|].
  rewrite IH, (IH (0 + _)). lia.
Qed.

Lemma total_items_cons (e : string * CartItem)
    (c : list (string * CartItem)) :
  total_items (e :: c) = quantity (snd e) + total_items c.
Proof.
  unfold total_items at 1. simpl. rewrite total_items_from. lia.
Qed.

Lemma total_items_app (c : list (string * CartItem))
    (e : string * CartItem) :
  total_items (c ++ [e]) = total_items c + quantity (snd e).
Proof.
  induction c as [|e' rest IH]; simpl app.
  - rewrite total_items_cons. unfold total_items. simpl. lia.
  - rewrite !total_items_cons, IH. lia.
Qed.

Lemma total_items_alter (f : CartItem -> CartItem) (k : string)
    (c : list (string * CartItem)) (item : CartItem) :
  cart_get c k = Some item ->
  total_items (cart_alter f k c)
  = total_items c - quantity item + quantity (f item).
Proof.
  induction c as [|[k' it] rest IH]; simpl; [discriminate|].
  destruct (String.eqb k' k); intros Hget.
  - injection Hget as ->. rewrite !total_items_cons. simpl. lia.
  - rewrite !total_items_cons, (IH Hget). simpl. lia.
Qed.

Lemma total_items_del (k : string) (c : list (string * CartItem))
    (item : CartItem) :
  cart_get c k = Some item ->
  total_items (cart_del k c) = total_items c - quantity item.
Proof.
  induction c as [|[k' it] rest IH]; simpl; [discriminate|].
  destruct (String.eqb k' k); intros Hget.
  - injection Hget as ->. rewrite total_items_cons. simpl. lia.
  - rewrite !total_items_cons, (IH Hget). simpl. lia.
Qed.

Lemma cart_step_receipt (g : Game) (op : CartOp) :
  cart_ok (cart g) ->
  let d := total_items (cart (cart_step g op))
           - Z.of_nat (length (receipt (cart_step g op))) in
  let d0 := total_items (cart g) - Z.of_nat (length (receipt g)) in
  match op with
  | OpAdd _ _ _ _ => d = d0
  | OpRemoveLast => d <= d0
  | OpClear => d = 0
  end.
Proof.
  intros [_ Hall]. cbv zeta.
  destruct op as [product sku wall stamp| |]; unfold cart_step.
  - destruct (add_to_cart_frame g product sku wall stamp)
      as (_ & _ & _ & _ & Hr).
    rewrite Hr, add_to_cart_cart, length_app. unfold cart_has.
    destruct (cart_get (cart g) sku) as [item|] eqn:Hget.
    + rewrite (total_items_alter _ _ _ _ Hget). simpl. lia.
    + rewrite total_items_app. simpl. lia.
  - assert (Hr : receipt (remove_last_item g) = receipt g).
    { unfold remove_last_item.
      repeat match goal with
      | |- context [match ?x with _ => _ end] => destruct x
      end; reflexivity. }
    rewrite Hr.
    destruct (remove_last_item_effect g)
      as [[Hc _] | (k & item & _ & _ & Hget & _ & Hc)]; rewrite Hc; [lia|].
    destruct (Forall_cart_get _ _ _ _ Hall Hget) as [_ Hq]. simpl in Hq.
    destruct (quantity item >? 1).
    + rewrite (total_items_alter _ _ _ _ Hget). simpl. lia.
    + rewrite (total_items_del _ _ _ Hget). lia.
  - reflexivity.
Qed.

(** X15: the receipt log is not the cart: [remove_last_item] never shortens
    it.  From an empty cart and log, the number of items in the cart
    (the item count of the receipt) is at most the number of log
    entries, and equal to it when nothing was removed. *)
Theorem receipt_log_counts (g : Game) (ops : list CartOp) :
  cart g = [] -> receipt g = [] ->
  let g' := run_cart g ops in
  total_items (cart g') <= Z.of_nat (length (receipt g'))
  /\ (Forall no_removal ops ->
      total_items (cart g') = Z.of_nat (length (receipt g'))).
Proof.
  intros Hcart Hreceipt. cbv zeta.
  assert (Hgen : forall ops g,
            cart_ok (cart g) ->
            let d0 := total_items (cart g) - Z.of_nat (length (receipt g)) in
            let d := total_items (cart (run_cart g ops))
                     - Z.of_nat (length (receipt (run_cart g ops))) in
            (d0 <= 0 -> d <= 0)
            /\ (Forall no_removal ops -> d0 = 0 -> d = 0)).
  { clear. unfold run_cart.
    induction ops as [|op rest IH]; intros g Hok; simpl; [auto|].
    pose proof (cart_step_receipt g op Hok) as Hstep. cbv zeta in Hstep.
    destruct (IH (cart_step g op) (cart_step_cart_ok g op Hok)) as [Hle Heq].
    cbv zeta in *. split.
    - intros Hd0. apply Hle. destruct op; lia.
    - intros Hnone Hd0. inversion Hnone as [|? ? Hop Hrest]; subst.
      apply Heq; [exact Hrest|]. destruct op; [lia | destruct Hop | lia]. }
  destruct (Hgen ops g) as [Hle Heq].
  { rewrite Hcart. split; constructor. }
  cbv zeta in *. rewrite Hcart, Hreceipt in Hle, Heq.
  change (total_items [] - Z.of_nat (length [])) with 0 in Hle, Heq.
  split; [lia|]. intros Hnone. specialize (Heq Hnone). lia.
Qed.

End LedgerMore.

(** ** Cart ledger in exact arithmetic: which line is "last", undo, scans *)

Section ExactLedgerMore.
#[local] Existing Instance exact_Z.

Ltac zlia := cbn [num nzero nadd nsub ngt exact_Z] in *; lia.

Lemma most_recent_snoc (c : list (string * CartItem))
    (e : string * CartItem) :
  most_recent (c ++ [e])
  = if first_added (snd e) >? snd (most_recent c)
    then (Some (fst e), first_added (snd e))
    else most_recent c.
Proof. unfold most_recent. rewrite fold_left_app. reflexivity. Qed.

(** The loop of [remove_last_item]: the time it ends with is the
    greatest [first_added] of the cart, or 0 if none is positive; the key
    it ends with belongs to the first line that has this time. *)
Lemma most_recent_spec (c : list (string * CartItem)) :
  let m := snd (most_recent c) in
  0 <= m
  /\ Forall (fun e => first_added (snd e) <= m) c
  /\ match fst (most_recent c) with
     | None => m = 0
     | Some k =>
         0 < m
         /\ exists pre item post,
              c = pre ++ (k, item) :: post
              /\ first_added item = m
              /\ Forall (fun e => first_added (snd e) < m) pre
     end.
Proof.
  induction c as [|e c IH] using rev_ind.
  - simpl. repeat split; [lia | constructor].
  - rewrite most_recent_snoc. cbv zeta in IH.
    destruct IH as (Hpos & Hall & Hkey).
    destruct (Z.gtb_spec (first_added (snd e)) (snd (most_recent c)))
      as [Hgt | Hle]; cbn [fst snd].
    + split; [zlia|]. split.
      * apply Forall_app. split; [|repeat constructor; zlia].
        eapply Forall_impl; [exact Hall|]. intros x Hx. zlia.
      * split; [zlia|]. exists c, (snd e), [].
        split; [now destruct e|]. split; [reflexivity|].
        eapply Forall_impl; [exact Hall|]. intros x Hx. zlia.
    + split; [exact Hpos|]. split.
      * apply Forall_app. split; [exact Hall | repeat constructor; exact Hle].
      * destruct (fst (most_recent c)) as [k|]; [|exact Hkey].
        destruct Hkey as (Hm & pre & item & post & -> & Hfa & Hpre).
        split; [exact Hm|]. exists pre, item, (post ++ [e]).
        rewrite <- app_assoc. auto.
Qed.

(** X16: [remove_last_item] acts on the line with the greatest [first_added];
    among lines with the same time it takes the one inserted first; and
    it does nothing to a cart in which no [first_added] is positive. *)
Theorem removal_target (g : Game) :
  match fst (most_recent (cart g)) with
  | None =>
      Forall (fun e => first_added (snd e) <= 0) (cart g)
      /\ cart (remove_last_item g) = cart g
      /\ total_price (remove_last_item g) = total_price g
  | Some k =>
      exists pre item post,
        cart g = pre ++ (k, item) :: post
        /\ 0 < first_added item
        /\ Forall (fun e => first_added (snd e) < first_added item) pre
        /\ Forall (fun e => first_added (snd e) <= first_added item) post
  end.
Proof.
  destruct (most_recent_spec (cart g)) as (Hpos & Hall & Hkey).
  cbv zeta in *.
  destruct (fst (most_recent (cart g))) as [k|] eqn:Hlast.
  - remember (snd (most_recent (cart g))) as m eqn:Hm0. clear Hm0.
    destruct Hkey as (Hm & pre & item & post & Hc & Hfa & Hpre).
    exists pre, item, post. rewrite Hfa.
    split; [exact Hc|]. split; [exact Hm|]. split; [exact Hpre|].
    rewrite Hc in Hall. apply Forall_app in Hall as [_ Hall].
    now inversion Hall.
  - split; [now rewrite Hkey in Hall|].
    unfold remove_last_item. rewrite Hlast.
    destruct (cart g) eqn:Hc; simpl; rewrite ?Hc; auto.
Qed.





End ExactLedgerMore.

(** ** Learning session: score, order of targets, end of session *)

Section LearningMore.
Context {NUM : Number}.

Lemma scan_timer_item_scoring (g : Game) (code : string) (t : Z) :
  scoring_ok g ->
  scoring_ok (scan_timer_item g code t)
  /\ timer_correct g <= timer_correct (scan_timer_item g code t)
     <= timer_correct g + 1.
Proof.
  intros (Hscore & Hfound & Hindex & Htarget).
  unfold scan_timer_item.
  destruct (current_target g) as [target|] eqn:Ht;
    [|split; [unfold scoring_ok; rewrite Ht; auto | lia]].
  destruct (_ <? _);
    [split; [unfold scoring_ok; rewrite Ht; auto | lia]|].
  destruct (lookup_product _ _) as [product|];
    [destruct (String.eqb _ _)|];
    unfold generate_new_target, scoring_ok;
    cbn [learning_current_index learning_product_order set_scanned_item
           set_timer_items_found set_timer_score set_timer_correct
           set_last_scan_time];
    destruct (Nat.ltb_spec (learning_current_index g)
                (length (learning_product_order g)));
    cbn [timer_score timer_correct timer_items_found learning_current_index
           learning_product_order current_target set_current_target
           set_learning_current_index set_scanned_item set_timer_items_found
           set_timer_score set_timer_correct set_last_scan_time];
    rewrite ?length_app; simpl length;
    (split; [|lia]);
    (split; [lia|]); (split; [lia|]); (split; [lia|]);
    try destruct (learning_product_order g !! learning_current_index g);
    lia.
Qed.

(** X19: the score of a learning session: the two counters agree and count
    the names recorded as found; the score is at most the number of
    scans and at most the number of products, whatever is scanned and
    whenever. *)
Theorem learning_score (g : Game) (start_time : Z)
    (shuffle : list Product -> list Product) (scans : list (string * Z)) :
  (forall l, shuffle l ≡ₚ l) ->
  let g' := evaluate_all (start_timer_mode g start_time shuffle) scans in
  timer_score g' = timer_correct g'
  /\ timer_correct g' = Z.of_nat (length (timer_items_found g'))
  /\ timer_correct g' <= Z.of_nat (length scans)
  /\ timer_correct g' <= Z.of_nat (size (skus g)).
Proof.
  intros Hshuffle. cbv zeta.
  set (g0 := start_timer_mode g start_time shuffle).
  assert (Hlen : length (learning_product_order g0) = size (skus g)).
  { destruct (start_timer_mode_on_target g start_time shuffle)
      as [(Horder & _) _]. fold g0 in Horder. rewrite Horder.
    rewrite (Permutation_length (Hshuffle _)), length_fmap.
    apply length_map_to_list. }
  assert (Hok0 : scoring_ok g0 /\ timer_correct g0 = 0).
  { subst g0. unfold start_timer_mode, generate_new_target, scoring_ok.
    cbn [learning_current_index learning_product_order skus
           set_learning_product_order set_last_key_time
           set_barcode_input_time set_barcode_buffer set_scanned_item
           set_learning_current_index set_timer_items_found
           set_timer_start_time set_timer_correct set_timer_score set_state].
    destruct (shuffle (map_to_list (skus g)).*2) as [|p rest]; simpl;
      repeat split; lia. }
  destruct Hok0 as [Hok0 Hzero].
  assert (Hgen : forall scans g1,
            scoring_ok g1 ->
            scoring_ok (evaluate_all g1 scans)
            /\ timer_correct (evaluate_all g1 scans)
               <= timer_correct g1 + Z.of_nat (length scans)
            /\ length (learning_product_order (evaluate_all g1 scans))
               = length (learning_product_order g1)).
  { clear. unfold evaluate_all.
    induction scans as [|[code t] rest IH]; intros g1 Hok; simpl.
    - split; [exact Hok | lia].
    - destruct (scan_timer_item_scoring g1 code t Hok) as [Hok1 Hstep].
      destruct (IH _ Hok1) as (Hok2 & Hle & Hlen).
      split; [exact Hok2|]. split; [lia|].
      rewrite Hlen. unfold scan_timer_item.
      destruct (current_target g1); [|reflexivity].
      destruct (_ <? _); [reflexivity|].
      destruct (lookup_product _ _) as [product|];
        [destruct (String.eqb _ _)|];
        match goal with
        | |- context [generate_new_target ?x] =>
            destruct (generate_new_target_frame x) as (_ & _ & ->)
        end; reflexivity. }
  destruct (Hgen scans g0 Hok0) as ((Hs & Hf & Hi & Ht) & Hle & Hlen').
  split; [exact Hs|]. split; [exact Hf|]. split; [lia|].
  rewrite <- Hlen, <- Hlen'.
  destruct (current_target (evaluate_all g0 scans)); lia.
Qed.

Lemma evaluate_all_over (g : Game) (scans : list (string * Z)) :
  current_target g = None -> evaluate_all g scans = g.
Proof.
  intros Hover. unfold evaluate_all.
  induction scans as [|[code t] rest IH]; simpl; [reflexivity|].
  unfold scan_timer_item at 2. rewrite Hover. exact IH.
Qed.

Lemma evaluate_all_app (g : Game) (l1 l2 : list (string * Z)) :
  evaluate_all g (l1 ++ l2) = evaluate_all (evaluate_all g l1) l2.
Proof. unfold evaluate_all. apply fold_left_app. Qed.

(** X20: the products are presented in the shuffled order, one per accepted
    scan: after [k] scans that pass the gate the target is the [k]-th
    product of the order; once all have been presented the session is
    over for good, and further scans, whenever they come, change
    nothing. *)
Theorem targets_follow_order (g : Game) (start_time : Z)
    (shuffle : list Product -> list Product)
    (scans more : list (string * Z)) :
  spaced (last_scan_time g) scans ->
  let order := shuffle (map_to_list (skus g)).*2 in
  let g0 := start_timer_mode g start_time shuffle in
  ((length scans <= length order)%nat ->
   current_target (evaluate_all g0 scans) = order !! length scans)
  /\ (length scans = length order ->
      evaluate_all g0 (scans ++ more) = evaluate_all g0 scans).
Proof.
  intros Hspaced order g0.
  destruct (start_timer_mode_on_target g start_time shuffle) as [Hon Htime].
  fold g0 in Hon, Htime. cbv zeta in Hon. fold order in Hon.
  assert (Hrun : (length scans <= length order)%nat ->
                 current_target (evaluate_all g0 scans) = order !! length scans).
  { intros Hle.
    destruct (evaluate_all_on_target order scans 0%nat g0 Hon) as (_ & Ht & _);
      [now rewrite Htime | simpl; lia | exact Ht]. }
  split; [exact Hrun|].
  intros Hlen. rewrite evaluate_all_app. apply evaluate_all_over.
  rewrite Hrun by lia. apply lookup_ge_None. lia.
Qed.

End LearningMore.

(** ** Examples for the further properties *)

Section MoreFloatExamples.
#[local] Existing Instance py_float.

(** A stray "-" between the second and third character of "12345678":
    the code is still emitted after its 8th character. *)
Lemma noise_ignored_witness :
  fst (feed (start_retail_mode demo_game)
         (firstn 2 demo_scan ++ ("-"%char, 5015) :: skipn 2 demo_scan))
  = fst (feed (start_retail_mode demo_game) (firstn 2 demo_scan ++ skipn 2 demo_scan))
  /\ snd (feed (start_retail_mode demo_game)
            (firstn 2 demo_scan ++ ("-"%char, 5015) :: skipn 2 demo_scan))
     = snd (feed (start_retail_mode demo_game) (firstn 2 demo_scan))
       ++ None :: snd (feed (fst (feed (start_retail_mode demo_game)
                                    (firstn 2 demo_scan)))
                         (skipn 2 demo_scan)).
Proof.
  apply (noise_ignored (start_retail_mode demo_game) (firstn 2 demo_scan)
           (skipn 2 demo_scan) "-" 5015).
  - reflexivity.
  - vm_compute. discriminate.
Defined.

Example noise_inside_burst :
  snd (feed (start_retail_mode demo_game)
         (firstn 2 demo_scan ++ ("-"%char, 5015) :: skipn 2 demo_scan))
  = replicate 8 None ++ [Some "12345678"].
Proof. vm_compute. reflexivity. Qed.

Lemma manual_entry_witness :
  snd (feed (start_retail_mode demo_game) typed_by_hand) = replicate 3 None
  /\ barcode_buffer (fst (feed (start_retail_mode demo_game) typed_by_hand))
     = "3".
Proof.
  apply (manual_entry (start_retail_mode demo_game)
           [("1"%char, 5000); ("2"%char, 5400)] "3" 6100).
  - repeat constructor.
  - simpl. unfold scanner_speed_threshold. repeat split; lia.
Defined.

Lemma burst_completes_at_13_witness :
  snd (feed (start_retail_mode default_game) unknown_scan)
  = replicate 12 None ++ [Some "9780201379624"]
  /\ barcode_buffer (fst (feed (start_retail_mode default_game) unknown_scan))
     = "".
Proof.
  apply (burst_completes_at_13 unknown_scan (start_retail_mode default_game)
           "9780201379624").
  - discriminate.
  - simpl. unfold scanner_speed_threshold. repeat split; auto; lia.
  - repeat constructor.
  - simpl. repeat split; vm_compute; reflexivity.
  - reflexivity.
  - reflexivity.
Defined.

Lemma disambiguator_output_witness :
  buffer_ok (fst (feed (start_retail_mode default_game) unknown_scan))
  /\ Forall (fun out => forall code, out = Some code ->
                          code_ok (start_retail_mode default_game) code)
       (snd (feed (start_retail_mode default_game) unknown_scan)).
Proof.
  apply (disambiguator_output (start_retail_mode default_game) unknown_scan).
  split; [reflexivity | simpl; lia].
Defined.

Lemma completion_of_clean_buffer_witness :
  let g := fst (feed (start_retail_mode demo_game) (firstn 7 demo_scan)) in
  barcode_buffer g = "1234567"
  /\ process_barcode_complete g (barcode_buffer g) = (g, None).
Proof.
  cbv zeta. split; [vm_compute; reflexivity|].
  rewrite (completion_of_clean_buffer
             (fst (feed (start_retail_mode demo_game) (firstn 7 demo_scan)))).
  - reflexivity.
  - split; [vm_compute; reflexivity | vm_compute; lia].
Defined.

(** "12345678" arriving as key presses in retail mode: the first digit
    is tried as a shortcut and starts the cooldown, and the completed
    code is dropped. *)
Lemma first_digit_blocks_code_witness :
  let g := start_retail_mode demo_game in
  let g1 := fst (process_barcode_input g "1" 5000) in
  let g2 := submit Retail g1 "1" 5000 1700000000.0%float "12:00:00" in
  key_press Retail g demo_first_key = g2
  /\ last_scan_time g2 = 5000
  /\ same_except_input g2 (key_presses Retail g demo_keys).
Proof.
  apply (first_digit_blocks_code Retail (start_retail_mode demo_game)
           demo_first_key demo_rest_keys).
  - repeat constructor.
  - reflexivity.
  - simpl. lia.
  - split; [vm_compute; discriminate | exact I].
  - unfold scan_cooldown. repeat constructor; simpl; lia.
Defined.

(** The same code by key presses and from the serial queue: only the
    serial path puts the apple in the cart. *)
Example keyboard_scan_lost :
  let g := start_retail_mode demo_game in
  cart (key_presses Retail g demo_keys) = []
  /\ scanned_item (key_press Retail g demo_first_key) = MsgProductNotFound
  /\ map fst (cart (check_serial_scanner g [demo_queued])) = ["12345678"].
Proof. vm_compute. auto. Qed.

(** In learning mode the first digit of a scanned code is judged as the
    answer: the target moves on and the code itself is never judged. *)
Example keyboard_scan_judged_early :
  let g := start_timer_mode demo_game 500 reverse in
  option_map name (current_target g) = Some "Apple"
  /\ current_target (key_press Learning g demo_first_key) = None
  /\ timer_correct (key_presses Learning g demo_keys) = 0.
Proof. vm_compute. auto. Qed.

Lemma drained_batch_registers_one_witness :
  let g := start_retail_mode default_game in
  (check_serial_scanner g drained_batch = g
   \/ exists q, In q drained_batch
                /\ check_serial_scanner g drained_batch = process_queued g q)
  /\ (state g <> RETAIL_MODE -> state g <> TIMER_MODE ->
      check_serial_scanner g drained_batch = g).
Proof.
  apply (drained_batch_registers_one (start_retail_mode default_game)
           drained_batch 5000).
  unfold one_window, scan_cooldown. repeat constructor; simpl; lia.
Defined.

(** Of the three barcodes drained together the first one, which is not
    in the catalog, is the one processed: the two products are lost. *)
Example drained_batch_result :
  let g := check_serial_scanner (start_retail_mode default_game) drained_batch in
  cart g = [] /\ scanned_item g = MsgProductNotFound.
Proof. vm_compute. auto. Qed.

Lemma shortcut_same_as_barcode_witness :
  submit Retail (start_retail_mode default_game) "2" 5000
    1700000000.0%float "12:00:00"
  = submit Retail (start_retail_mode default_game) "7501234567891" 5000
      1700000000.0%float "12:00:00".
Proof.
  apply (shortcut_same_as_barcode Retail (start_retail_mode default_game)
           "2" "7501234567891").
  - vm_compute. reflexivity.
  - vm_compute. reflexivity.
Defined.

Lemma lookup_product_known_witness :
  (lookup_product overlap_game "12345678" = None
   <-> has_key (keyboard_shortcuts overlap_game) "12345678" = false
       /\ has_key (skus overlap_game) "12345678" = false)
  /\ (forall product, lookup_product overlap_game "12345678" = Some product ->
        exists sku, skus overlap_game !! sku = Some product).
Proof.
  apply (lookup_product_known overlap_game "12345678").
  intros key target H. unfold overlap_game, init in H. simpl in H.
  apply lookup_singleton_Some in H as [<- <-].
  exists bread. vm_compute. reflexivity.
Defined.

Lemma cart_well_formed_witness :
  cart_ok (cart (run_cart (start_retail_mode default_game) receipt_ops))
  /\ cart_ok (cart (run_retail (start_retail_mode default_game)
                      [EvScan "2" 5000 1700000000.0%float "12:00:00";
                       EvRemoveLast])).
Proof.
  apply (cart_well_formed (start_retail_mode default_game)).
  split; constructor.
Defined.

(** Bread, then milk, then bread again: the "last" item is still the
    milk, and removing it leaves the bread at quantity 2. *)
Lemma rescan_keeps_removal_target_witness :
  let g' := fst (add_to_cart two_lines_game bread "7501234567890"
                   1700000010.0%float "12:00:10") in
  fst (most_recent (cart g')) = Some "7501234567891"
  /\ map (fun e => (fst e, quantity (snd e))) (cart (remove_last_item g'))
     = [("7501234567890", 2)].
Proof.
  cbv zeta.
  destruct (rescan_keeps_removal_target two_lines_game bread "7501234567890"
              1700000010.0%float "12:00:10" eq_refl) as [Hsame Hline].
  split; [rewrite Hsame; vm_compute; reflexivity|].
  vm_compute. reflexivity.
Defined.

Lemma receipt_log_counts_witness :
  let g' := run_cart (start_retail_mode default_game) receipt_ops in
  total_items (cart g') <= Z.of_nat (length (receipt g'))
  /\ total_items (cart g') = 3
  /\ length (receipt g') = 4%nat.
Proof.
  cbv zeta.
  destruct (receipt_log_counts (start_retail_mode default_game) receipt_ops
              eq_refl eq_refl) as [Hle _].
  split; [exact Hle|]. vm_compute. auto.
Defined.

Lemma learning_score_witness :
  let g' := evaluate_all (start_timer_mode default_game 500 reverse)
              learning_scans in
  timer_score g' = timer_correct g'
  /\ timer_correct g' = Z.of_nat (length (timer_items_found g'))
  /\ timer_correct g' <= Z.of_nat (length learning_scans)
  /\ timer_correct g' <= Z.of_nat (size (skus default_game)).
Proof.
  apply (learning_score default_game 500 reverse learning_scans).
  intros l. apply reverse_Permutation.
Defined.

Lemma targets_follow_order_witness :
  let order := reverse (map_to_list (skus default_game)).*2 in
  let g0 := start_timer_mode default_game 500 reverse in
  let scans := [("7", 1500); ("nothing", 2500); ("7501234567890", 3500)] in
  ((length scans <= length order)%nat ->
   current_target (evaluate_all g0 scans) = order !! length scans)
  /\ (length scans = length order ->
      evaluate_all g0 (scans ++ learning_scans) = evaluate_all g0 scans).
Proof.
  apply (targets_follow_order default_game 500 reverse
           [("7", 1500); ("nothing", 2500); ("7501234567890", 3500)]
           learning_scans).
  simpl. unfold scan_cooldown. repeat split; lia.
Defined.

End MoreFloatExamples.

Section MoreExactLedgerExamples.
#[local] Existing Instance exact_Z.

(** Two lines with the same clock value: the one inserted first is the
    "last" item. *)
Example removal_target_tie :
  fst (most_recent (cart tied_game)) = Some "12345678"
  /\ map fst (cart (remove_last_item tied_game)) = ["87654321"].
Proof. vm_compute. auto. Qed.



Example cents_events_result :
  let g' := run_retail (start_retail_mode cents_game) cents_events in
  map (fun e => (fst e, quantity (snd e), item_total_price (snd e))) (cart g')
  = [("12345678", 2, 300); ("87654321", 1, 95)]
  /\ total_price g' = 395.
Proof. vm_compute. auto. Qed.

End MoreExactLedgerExamples.

(** ** Scrolling in the cart *)

Section Scrolling.
Context {NUM : Number}.

Lemma scroll_step (g : Game) (up : bool) :
  let g' := if up then scroll_up g else scroll_down g in
  let n := Z.of_nat (length (cart g)) in
  cart g' = cart g
  /\ (0 <= cart_scroll_offset g <= Z.max 0 (n - 8) ->
      0 <= cart_scroll_offset g' <= Z.max 0 (n - 8)).
Proof.
  cbv zeta. destruct up; unfold scroll_up, scroll_down.
  - destruct (Z.gtb_spec (cart_scroll_offset g) 0); simpl; split; auto; lia.
  - cbv zeta.
    destruct (Z.leb_spec (Z.of_nat (length (cart g))) 4);
      destruct (Z.gtb_spec (Z.of_nat (length (cart g))) 4);
      destruct (Z.gtb_spec (Z.of_nat (length (cart g))) 8);
      try (split; [reflexivity | auto]); try lia;
      destruct (Z.ltb_spec (cart_scroll_offset g)
                  (Z.of_nat (length (cart g)) - 8));
      simpl; split; auto; lia.
Qed.

(** X21: the keys UP and DOWN never touch the cart and keep the scroll
    offset between 0 and the number of lines beyond 8; with at most 8
    lines in the cart an offset of 0 never moves. *)
Theorem scroll_in_range (g : Game) (keys : list bool) :
  let n := Z.of_nat (length (cart g)) in
  0 <= cart_scroll_offset g <= Z.max 0 (n - 8) ->
  cart (scroll g keys) = cart g
  /\ 0 <= cart_scroll_offset (scroll g keys) <= Z.max 0 (n - 8)
  /\ (n <= 8 -> cart_scroll_offset (scroll g keys) = 0).
Proof.
  cbv zeta. intros Hrange.
  enough (cart (scroll g keys) = cart g
          /\ 0 <= cart_scroll_offset (scroll g keys)
             <= Z.max 0 (Z.of_nat (length (cart g)) - 8)) as [Hc Hr].
  { split; [exact Hc|]. split; [exact Hr|]. lia. }
  unfold scroll. revert g Hrange.
  induction keys as [|up rest IH]; intros g Hrange; simpl; [auto|].
  destruct (scroll_step g up) as [Hc Hr]. cbv zeta in Hc, Hr.
  destruct (IH (if up then scroll_up g else scroll_down g)) as [Hc' Hr'].
  - rewrite Hc. exact (Hr Hrange).
  - rewrite Hc in Hc', Hr'. auto.
Qed.

End Scrolling.

Section ScrollingExamples.
#[local] Existing Instance py_float.

Lemma scroll_in_range_witness :
  cart (scroll two_lines_game [false; false; true; false]) = cart two_lines_game
  /\ 0 <= cart_scroll_offset (scroll two_lines_game [false; false; true; false])
     <= Z.max 0 (Z.of_nat (length (cart two_lines_game)) - 8)
  /\ (Z.of_nat (length (cart two_lines_game)) <= 8 ->
      cart_scroll_offset (scroll two_lines_game [false; false; true; false]) = 0).
Proof.
  apply (scroll_in_range two_lines_game [false; false; true; false]).
  vm_compute. split; discriminate.
Defined.

End ScrollingExamples.
